(** * Leave Day Selector: the eligibility and quota engine of [App.js]

    A shallow embedding of the engine of [src/public/src/src/App.js]
    (date helpers, [calculateQuotas], [isLeaveEligibleForDate],
    [calendarDays], [assignLeave], [removeAssignment]) together with the
    part of the ECMAScript [Date] object the engine relies on, and the
    properties of the engine stated over that embedding.

    React state is passed explicitly: the hooks [calculateQuotas],
    [isLeaveEligibleForDate] and [calendarDays] take the leave types and
    the assignments they close over as arguments, and the setters of
    [assignLeave] and [removeAssignment] return the next store. *)

From Stdlib Require Import ZArith List String Ascii Bool Lia DecimalString.
Import ListNotations.

Local Open Scope string_scope.
Local Open Scope Z_scope.

(** ** Results of code that may throw

    [Date.prototype.toISOString] throws a [RangeError] on an invalid date;
    every engine function that formats a date inherits that exception. *)

Inductive exn : Type := RangeError.

Inductive result (A : Type) : Type :=
| Ok (a : A)
| Throw (e : exn).

Arguments Ok {A} a.
Arguments Throw {A} e.

Definition bind {A B : Type} (r : result A) (k : A -> result B) : result B :=
  match r with
  | Ok a => k a
  | Throw e => Throw e
  end.

Notation "x <- r ;; k" := (bind r (fun x => k))
  (at level 61, r at next level, right associativity).

(** ** ECMAScript time values (ECMA-262, "Time Values and Time Range")

    A time value is a number of milliseconds since the epoch, in UTC.  Day
    numbers, years, months and dates follow the abstract operations of the
    standard.  Time values are kept as unbounded integers: the clipping of
    ECMAScript at 8.64e15 ms is far outside the four-digit years the engine
    works with and is not represented. *)

Module JS.

Definition msPerDay : Z := 86400000.

Definition Day (t : Z) : Z := t / msPerDay.
Definition TimeWithinDay (t : Z) : Z := t mod msPerDay.

Definition DaysInYear (y : Z) : Z :=
  if negb (y mod 4 =? 0) then 365
  else if negb (y mod 100 =? 0) then 366
  else if negb (y mod 400 =? 0) then 365
  else 366.

Definition DayFromYear (y : Z) : Z :=
  365 * (y - 1970) + (y - 1969) / 4 - (y - 1901) / 100 + (y - 1601) / 400.

(** [YearFromTime]: the largest [y] with [DayFromYear y <= d], found from
    the mean year length and corrected by one year either way. *)
Definition YearFromDay (d : Z) : Z :=
  let y0 := 1970 + (400 * d) / 146097 in
  if d <? DayFromYear y0 then y0 - 1
  else if DayFromYear (y0 + 1) <=? d then y0 + 1
  else y0.

(** 1 in a leap year, 0 otherwise *)
Definition leapOf (y : Z) : Z := if DaysInYear y =? 366 then 1 else 0.

Definition InLeapYear (d : Z) : Z := leapOf (YearFromDay d).

Definition DayWithinYear (d : Z) : Z := d - DayFromYear (YearFromDay d).

(** First day, within its year, of month [m] (0 = January); [leap] is 1 in
    a leap year and 0 otherwise.  Month 12 stands for the end of the year. *)
Definition monthFirstDay (m leap : Z) : Z :=
  if m <=? 0 then 0
  else if m =? 1 then 31
  else if m =? 2 then 59 + leap
  else if m =? 3 then 90 + leap
  else if m =? 4 then 120 + leap
  else if m =? 5 then 151 + leap
  else if m =? 6 then 181 + leap
  else if m =? 7 then 212 + leap
  else if m =? 8 then 243 + leap
  else if m =? 9 then 273 + leap
  else if m =? 10 then 304 + leap
  else if m =? 11 then 334 + leap
  else 365 + leap.

Definition MonthFromDay (d : Z) : Z :=
  let n := DayWithinYear d in
  let l := InLeapYear d in
  if n <? 31 then 0
  else if n <? 59 + l then 1
  else if n <? 90 + l then 2
  else if n <? 120 + l then 3
  else if n <? 151 + l then 4
  else if n <? 181 + l then 5
  else if n <? 212 + l then 6
  else if n <? 243 + l then 7
  else if n <? 273 + l then 8
  else if n <? 304 + l then 9
  else if n <? 334 + l then 10
  else 11.

Definition DateFromDay (d : Z) : Z :=
  DayWithinYear d - monthFirstDay (MonthFromDay d) (InLeapYear d) + 1.

(** 0 = Sunday, ..., 6 = Saturday; the epoch was a Thursday. *)
Definition WeekDay (d : Z) : Z := (d + 4) mod 7.

Definition MakeDay (year month date : Z) : Z :=
  let ym := year + month / 12 in
  let mn := month mod 12 in
  DayFromYear ym
  + monthFirstDay mn (leapOf ym)
  + date - 1.

Definition MakeDate (day time : Z) : Z := day * msPerDay + time.

Definition DaysInMonth (year month : Z) : Z :=
  MakeDay year (month + 1) 1 - MakeDay year month 1.

(** *** The host

    What the engine reads from its environment: the offset of local time
    from UTC in milliseconds (taken as fixed: no daylight-saving
    transitions), the clock behind [new Date()], and what [Date.parse]
    makes of a string that is not a valid date in the ISO form
    (ECMA-262 leaves it to the implementation; [None] is NaN). *)

Record Host : Type := {
  LocalTZA : Z;
  now : Z;
  parseFallback : string -> option Z
}.

(** A number that may be NaN, and a [Date] object by its time value. *)
Definition number : Type := option Z.
Definition Date : Type := option Z.

Definition add (a b : number) : number :=
  match a, b with
  | Some x, Some y => Some (x + y)
  | _, _ => None
  end.

Definition sub (a b : number) : number :=
  match a, b with
  | Some x, Some y => Some (x - y)
  | _, _ => None
  end.

(** [a === b] on numbers: NaN equals nothing. *)
Definition strictEq (a b : number) : bool :=
  match a, b with
  | Some x, Some y => x =? y
  | _, _ => false
  end.

Definition LocalTime (h : Host) (t : Z) : Z := t + LocalTZA h.
Definition UTC (h : Host) (t : Z) : Z := t - LocalTZA h.

Definition getTime (d : Date) : number := d.

Definition getDay (h : Host) (d : Date) : number :=
  option_map (fun t => WeekDay (Day (LocalTime h t))) d.

Definition getDate (h : Host) (d : Date) : number :=
  option_map (fun t => DateFromDay (Day (LocalTime h t))) d.

Definition getMonth (h : Host) (d : Date) : number :=
  option_map (fun t => MonthFromDay (Day (LocalTime h t))) d.

Definition getFullYear (h : Host) (d : Date) : number :=
  option_map (fun t => YearFromDay (Day (LocalTime h t))) d.

(** [d.setDate(date)]: the new time value of [d], which the call also
    returns.  The local time of day is kept. *)
Definition setDate (h : Host) (d : Date) (date : number) : Date :=
  match d, date with
  | Some t, Some dt =>
      let lt := LocalTime h t in
      let newDate :=
        MakeDate (MakeDay (YearFromDay (Day lt)) (MonthFromDay (Day lt)) dt)
                 (TimeWithinDay lt) in
      Some (UTC h newDate)
  | _, _ => None
  end.

(** [new Date(year, month, date)]: local midnight; a year from 0 to 99
    stands for 1900 + year. *)
Definition newDateYMD (h : Host) (year month date : number) : Date :=
  match year, month, date with
  | Some y, Some m, Some dt =>
      let yr := if (0 <=? y) && (y <=? 99) then 1900 + y else y in
      Some (UTC h (MakeDate (MakeDay yr m dt) 0))
  | _, _, _ => None
  end.

(** [new Date(ms)] *)
Definition newDateMs (ms : number) : Date := ms.

(** [new Date()] *)
Definition newDateNow (h : Host) : Date := Some (now h).

(** *** Decimal fields of the ISO form *)

Definition digitChar (n : Z) : ascii := ascii_of_N (Z.to_N (48 + n)).

Definition digitVal (c : ascii) : option Z :=
  let n := Z.of_N (N_of_ascii c) in
  if (48 <=? n) && (n <=? 57) then Some (n - 48) else None.

Definition pad2 (n : Z) : string :=
  String (digitChar (n / 10 mod 10)) (String (digitChar (n mod 10)) "").

Definition pad4 (n : Z) : string :=
  String (digitChar (n / 1000 mod 10)) (String (digitChar (n / 100 mod 10)) (pad2 n)).

Definition pad6 (n : Z) : string :=
  String (digitChar (n / 100000 mod 10))
    (String (digitChar (n / 10000 mod 10)) (pad4 n)).

(** The year of [toISOString]: four digits from 0 to 9999, a sign and six
    digits otherwise. *)
Definition isoYear (y : Z) : string :=
  if (0 <=? y) && (y <=? 9999) then pad4 y
  else if y <? 0 then "-" ++ pad6 (- y)
  else "+" ++ pad6 y.

(** The part of [toISOString()] before the [T], for a day number. *)
Definition isoDate (day : Z) : string :=
  isoYear (YearFromDay day) ++ "-" ++ pad2 (MonthFromDay day + 1)
    ++ "-" ++ pad2 (DateFromDay day).

Definition pad3 (n : Z) : string :=
  String (digitChar (n / 100 mod 10)) (pad2 n).

(** The part of [toISOString()] after the [T], for a time within the day. *)
Definition isoTime (ms : Z) : string :=
  pad2 (ms / 3600000) ++ ":" ++ pad2 (ms / 60000 mod 60) ++ ":"
    ++ pad2 (ms / 1000 mod 60) ++ "." ++ pad3 (ms mod 1000) ++ "Z".

(** [d.toISOString()]: the UTC date and time of [d]; a [RangeError] on an
    invalid date. *)
Definition toISOString (d : Date) : result string :=
  match d with
  | Some t => Ok (isoDate (Day t) ++ "T" ++ isoTime (TimeWithinDay t))
  | None => Throw RangeError
  end.

(** The fields of [YYYY-MM-DD] followed by [rest]: year, month (1 to 12 is
    not checked here) and day of the month. *)
Definition isoFields (s : string) : option (Z * Z * Z * string) :=
  match s with
  | String y1 (String y2 (String y3 (String y4 (String h1
      (String m1 (String m2 (String h2 (String d1 (String d2 rest))))))))) =>
      if Ascii.eqb h1 "-" && Ascii.eqb h2 "-" then
        match digitVal y1, digitVal y2, digitVal y3, digitVal y4,
              digitVal m1, digitVal m2, digitVal d1, digitVal d2 with
        | Some a, Some b, Some c, Some d, Some e, Some f, Some g, Some i =>
            Some (1000 * a + 100 * b + 10 * c + d, 10 * e + f, 10 * g + i, rest)
        | _, _, _, _, _, _, _, _ => None
        end
      else None
  | _ => None
  end.

Definition validYMD (y m d : Z) : bool :=
  (1 <=? m) && (m <=? 12) && (1 <=? d) && (d <=? DaysInMonth y (m - 1)).

(** [new Date(s)] for a string: a valid [YYYY-MM-DDT00:00:00] is midnight
    of that day in local time; anything else is the host's business. *)
Definition newDateString (h : Host) (s : string) : Date :=
  match isoFields s with
  | Some (y, m, d, rest) =>
      if validYMD y m d && String.eqb rest "T00:00:00"
      then Some (UTC h (MakeDate (MakeDay y (m - 1) d) 0))
      else parseFallback h s
  | None => parseFallback h s
  end.

(** The canonical [YYYY-MM-DD] strings: a real calendar day of the years
    0000 to 9999. *)
Definition canonical (s : string) : bool :=
  match isoFields s with
  | Some (y, m, d, rest) => validYMD y m d && String.eqb rest ""
  | None => false
  end.

End JS.

(** ** A [Set] of strings, in insertion order *)

Module JSSet.

Definition t : Type := list string.

Definition empty : t := [].

Definition has (s : t) (x : string) : bool := existsb (String.eqb x) s.

Definition add (s : t) (x : string) : t := if has s x then s else (s ++ [x])%list.

Definition size (s : t) : Z := Z.of_nat (List.length s).

End JSSet.

(** ** The data of [App.js]

    The interfaces [LeaveRules], [LeaveType], [Assignment] and [DayInfo],
    field by field.  An optional field is an [option]; strings are byte
    strings, compared as JavaScript compares strings of ASCII characters;
    quota limits and week day numbers are integers. *)

Module DateWindow.
Record t : Type := { start : string; end_ : string }.
End DateWindow.

Module EligibilityFilters.
Record t : Type := { days_of_week : option (list Z) }.
End EligibilityFilters.

Module DaysQuota.
Record t : Type := { max_days : Z }.
End DaysQuota.

Module WeeksQuota.
Record t : Type := { max_weeks : Z }.
End WeeksQuota.

Module Quotas.
Record t : Type := {
  weekly : option DaysQuota.t;
  weeks_per_month : option WeeksQuota.t;
  total : option DaysQuota.t
}.
End Quotas.

Module LeaveRules.
Record t : Type := {
  date_window : DateWindow.t;
  eligibility_filters : option EligibilityFilters.t;
  quotas : Quotas.t
}.
End LeaveRules.

Module LeaveType.
Record t : Type := {
  id : string;
  name : string;
  color : string;
  rules : LeaveRules.t;
  notes : option string
}.
End LeaveType.

Module Assignment.
Record t : Type := {
  id : string;
  date : string;
  leaveTypeId : string;
  createdAt : string;
  updatedAt : string
}.
End Assignment.

Module DayInfo.
Record t : Type := {
  date : string;
  isCurrentMonth : bool;
  assignment : option Assignment.t;
  eligibleLeaves : list string
}.
End DayInfo.

(** The counts of [calculateQuotas]; a remaining count is an integer or
    [Infinity]. *)
Inductive count : Type :=
| Finite (n : Z)
| Infinity.

Module Used.
Record t : Type := { weekly : Z; weeksThisMonth : Z; total : Z }.
End Used.

Module Remaining.
Record t : Type := { weekly : count; weeksThisMonth : count; total : count }.
End Remaining.

(** [{ used, remaining }]; [None] is the empty object [{}] returned for an
    unknown leave type. *)
Module QuotaReport.
Record t : Type := { used : option Used.t; remaining : option Remaining.t }.
End QuotaReport.

Module Eligibility.
Record t : Type := { eligible : bool; reason : option string }.
End Eligibility.

(** ** The engine of [App.js] *)

Module App.

Import JS.

(** [x ?? Infinity] minus a count *)
Definition orInfinity (x : option Z) : count :=
  match x with
  | Some n => Finite n
  | None => Infinity
  end.

Definition minus (c : count) (n : Z) : count :=
  match c with
  | Finite m => Finite (m - n)
  | Infinity => Infinity
  end.

(** [c <= 0] for a field of [quotas.remaining]; a missing field is
    [undefined], which compares false. *)
Definition atMostZero (c : option count) : bool :=
  match c with
  | Some (Finite n) => n <=? 0
  | Some Infinity => false
  | None => false
  end.

(** The text of a string before its first [T]: [s.split('T')[0]]. *)
Fixpoint beforeT (s : string) : string :=
  match s with
  | EmptyString => EmptyString
  | String c s' => if Ascii.eqb c "T" then EmptyString else String c (beforeT s')
  end.

Definition formatDate (date : Date) : result string :=
  s <- toISOString date ;;
  Ok (beforeT s).

Definition parseDate (h : Host) (dateStr : string) : Date :=
  newDateString h (dateStr ++ "T00:00:00").

Definition getWeekStart (h : Host) (date : Date) : Date :=
  let d := date in
  let day := getDay h d in
  let diff := add (sub (getDate h d) day) (Some (if strictEq day (Some 0) then -6 else 1)) in
  newDateMs (setDate h d diff).

Definition getWeekEnd (h : Host) (date : Date) : Date :=
  let start := getWeekStart h date in
  newDateMs (add (getTime start) (Some (6 * 24 * 60 * 60 * 1000))).

Definition getMonthStart (h : Host) (date : Date) : Date :=
  newDateYMD h (getFullYear h date) (getMonth h date) (Some 1).

Definition getMonthEnd (h : Host) (date : Date) : Date :=
  newDateYMD h (getFullYear h date) (add (getMonth h date) (Some 1)) (Some 0).

(** [date >= start && date <= end] on strings *)
Definition isDateInRange (date start end_ : string) : bool :=
  negb (String.ltb date start) && String.leb date end_.

(** The [forEach] that collects, in a [Set], the formatted week start of
    each assignment. *)
Fixpoint addWeekStarts (h : Host) (l : list Assignment.t) (weeks : JSSet.t)
  : result JSSet.t :=
  match l with
  | [] => Ok weeks
  | a :: l' =>
      let assignmentDate := parseDate h (Assignment.date a) in
      let weekStart := getWeekStart h assignmentDate in
      w <- formatDate weekStart ;;
      addWeekStarts h l' (JSSet.add weeks w)
  end.

Definition findLeaveType (leaveTypes : list LeaveType.t) (leaveTypeId : string)
  : option LeaveType.t :=
  find (fun lt => String.eqb (LeaveType.id lt) leaveTypeId) leaveTypes.

Definition max_days_of (q : option DaysQuota.t) : option Z :=
  option_map DaysQuota.max_days q.

Definition max_weeks_of (q : option WeeksQuota.t) : option Z :=
  option_map WeeksQuota.max_weeks q.

Definition calculateQuotas (h : Host) (leaveTypes : list LeaveType.t)
    (assignments : list Assignment.t)
    (leaveTypeId : string) (targetDate : option string)
  : result QuotaReport.t :=
  match findLeaveType leaveTypes leaveTypeId with
  | None => Ok {| QuotaReport.used := None; QuotaReport.remaining := None |}
  | Some leaveType =>
      let leaveAssignments :=
        filter (fun a => String.eqb (Assignment.leaveTypeId a) leaveTypeId)
               assignments in
      let targetDateObj :=
        match targetDate with
        | None | Some EmptyString => newDateNow h
        | Some s => parseDate h s
        end in
      let weekStart := getWeekStart h targetDateObj in
      let weekEnd := getWeekEnd h targetDateObj in
      weekStartStr <- formatDate weekStart ;;
      weekEndStr <- formatDate weekEnd ;;
      let usedThisWeek :=
        Z.of_nat (List.length (filter
          (fun a => isDateInRange (Assignment.date a) weekStartStr weekEndStr)
          leaveAssignments)) in
      let monthStart := getMonthStart h targetDateObj in
      let monthEnd := getMonthEnd h targetDateObj in
      monthStartStr <- formatDate monthStart ;;
      monthEndStr <- formatDate monthEnd ;;
      let monthlyAssignments :=
        filter
          (fun a => isDateInRange (Assignment.date a) monthStartStr monthEndStr)
          leaveAssignments in
      weeksUsedInMonth <- addWeekStarts h monthlyAssignments JSSet.empty ;;
      let weeksUsedThisMonth := JSSet.size weeksUsedInMonth in
      let totalUsed := Z.of_nat (List.length leaveAssignments) in
      let q := LeaveRules.quotas (LeaveType.rules leaveType) in
      Ok {| QuotaReport.used := Some
              {| Used.weekly := usedThisWeek;
                 Used.weeksThisMonth := weeksUsedThisMonth;
                 Used.total := totalUsed |};
            QuotaReport.remaining := Some
              {| Remaining.weekly :=
                   minus (orInfinity (max_days_of (Quotas.weekly q))) usedThisWeek;
                 Remaining.weeksThisMonth :=
                   minus (orInfinity (max_weeks_of (Quotas.weeks_per_month q)))
                         weeksUsedThisMonth;
                 Remaining.total :=
                   minus (orInfinity (max_days_of (Quotas.total q))) totalUsed |} |}
  end.

Definition ineligible (why : string) : Eligibility.t :=
  {| Eligibility.eligible := false; Eligibility.reason := Some why |}.

Definition isEligible : Eligibility.t :=
  {| Eligibility.eligible := true; Eligibility.reason := None |}.

(** [leaveType.rules.eligibility_filters?.days_of_week] *)
Definition days_of_week_of (leaveType : LeaveType.t) : option (list Z) :=
  match LeaveRules.eligibility_filters (LeaveType.rules leaveType) with
  | Some f => EligibilityFilters.days_of_week f
  | None => None
  end.

(** [days.includes(dayOfWeek)]: NaN is in no list of integers. *)
Definition includes (days : list Z) (dayOfWeek : number) : bool :=
  match dayOfWeek with
  | Some k => existsb (Z.eqb k) days
  | None => false
  end.

Definition isLeaveEligibleForDate (h : Host) (leaveTypes : list LeaveType.t)
    (assignments : list Assignment.t) (leaveTypeId date : string)
  : result Eligibility.t :=
  match findLeaveType leaveTypes leaveTypeId with
  | None => Ok (ineligible "Leave type not found")
  | Some leaveType =>
      let window := LeaveRules.date_window (LeaveType.rules leaveType) in
      let q := LeaveRules.quotas (LeaveType.rules leaveType) in
      if negb (isDateInRange date (DateWindow.start window) (DateWindow.end_ window))
      then Ok (ineligible "Date outside leave window")
      else if
        match days_of_week_of leaveType with
        | Some days =>
            let dateObj := parseDate h date in
            let dayOfWeek := getDay h dateObj in
            negb (includes days dayOfWeek)
        | None => false
        end
      then Ok (ineligible "Day of week not allowed")
      else if
        existsb (fun a => String.eqb (Assignment.date a) date
                          && String.eqb (Assignment.leaveTypeId a) leaveTypeId)
                assignments
      then Ok (ineligible "Already assigned")
      else if existsb (fun a => String.eqb (Assignment.date a) date) assignments
      then Ok (ineligible "Date already has another leave assigned")
      else
        quotas <- calculateQuotas h leaveTypes assignments leaveTypeId (Some date) ;;
        if match Quotas.weekly q with
           | Some _ =>
               atMostZero (option_map Remaining.weekly (QuotaReport.remaining quotas))
           | None => false
           end
        then Ok (ineligible "Weekly quota exceeded")
        else if
          match Quotas.total q with
          | Some _ =>
              atMostZero (option_map Remaining.total (QuotaReport.remaining quotas))
          | None => false
          end
        then Ok (ineligible "Total quota exceeded")
        else
          match Quotas.weeks_per_month q with
          | Some wpm =>
              let targetDateObj := parseDate h date in
              let weekStartOfTarget := getWeekStart h targetDateObj in
              let monthStart := getMonthStart h targetDateObj in
              let monthEnd := getMonthEnd h targetDateObj in
              monthStartStr <- formatDate monthStart ;;
              monthEndStr <- formatDate monthEnd ;;
              let monthlyAssignments :=
                filter
                  (fun a => String.eqb (Assignment.leaveTypeId a) leaveTypeId
                            && isDateInRange (Assignment.date a)
                                             monthStartStr monthEndStr)
                  assignments in
              weeksUsed <- addWeekStarts h monthlyAssignments JSSet.empty ;;
              targetWeekStart <- formatDate weekStartOfTarget ;;
              let wouldBeNewWeek := negb (JSSet.has weeksUsed targetWeekStart) in
              if wouldBeNewWeek
                 && (WeeksQuota.max_weeks wpm <=? JSSet.size weeksUsed)
              then Ok (ineligible "Monthly week limit exceeded")
              else Ok isEligible
          | None => Ok isEligible
          end
  end.

(** The leave types the application starts with *)
Definition createSeedLeaveTypes : list LeaveType.t :=
  [ {| LeaveType.id := "leave-1";
       LeaveType.name := "Mother Leave";
       LeaveType.color := "#3B82F6";
       LeaveType.rules :=
         {| LeaveRules.date_window :=
              {| DateWindow.start := "2025-07-03"; DateWindow.end_ := "2025-08-02" |};
            LeaveRules.eligibility_filters := None;
            LeaveRules.quotas :=
              {| Quotas.weekly := Some {| DaysQuota.max_days := 1 |};
                 Quotas.weeks_per_month := Some {| WeeksQuota.max_weeks := 4 |};
                 Quotas.total := None |} |};
       LeaveType.notes := None |};
    {| LeaveType.id := "leave-2";
       LeaveType.name := "Therapy Sessions";
       LeaveType.color := "#10B981";
       LeaveType.rules :=
         {| LeaveRules.date_window :=
              {| DateWindow.start := "2025-01-01"; DateWindow.end_ := "2025-12-20" |};
            LeaveRules.eligibility_filters := None;
            LeaveRules.quotas :=
              {| Quotas.weekly := Some {| DaysQuota.max_days := 3 |};
                 Quotas.weeks_per_month := Some {| WeeksQuota.max_weeks := 2 |};
                 Quotas.total := None |} |};
       LeaveType.notes := None |} ].

(** [l.filter(p)] for a predicate that may throw *)
Fixpoint filterR {A : Type} (p : A -> result bool) (l : list A) : result (list A) :=
  match l with
  | [] => Ok []
  | x :: l' =>
      b <- p x ;;
      rest <- filterR p l' ;;
      Ok (if b then x :: rest else rest)
  end.

(** The forty-two turns of the loop of [calendarDays]; [currentDateForLoop]
    is moved one day on at the end of each turn. *)
Fixpoint calendarLoop (h : Host) (leaveTypes : list LeaveType.t)
    (assignments : list Assignment.t) (month : number)
    (turns : nat) (currentDateForLoop : Date) (days : list DayInfo.t)
  : result (list DayInfo.t) :=
  match turns with
  | O => Ok days
  | S turns' =>
      dateStr <- formatDate currentDateForLoop ;;
      let isCurrentMonth := strictEq (getMonth h currentDateForLoop) month in
      let assignment :=
        find (fun a => String.eqb (Assignment.date a) dateStr) assignments in
      eligible <-
        filterR (fun lt =>
                   e <- isLeaveEligibleForDate h leaveTypes assignments
                          (LeaveType.id lt) dateStr ;;
                   Ok (Eligibility.eligible e))
                leaveTypes ;;
      let eligibleLeaves := map LeaveType.id eligible in
      let day := {| DayInfo.date := dateStr;
                    DayInfo.isCurrentMonth := isCurrentMonth;
                    DayInfo.assignment := assignment;
                    DayInfo.eligibleLeaves := eligibleLeaves |} in
      calendarLoop h leaveTypes assignments month turns'
        (setDate h currentDateForLoop (add (getDate h currentDateForLoop) (Some 1)))
        (days ++ [day])%list
  end.

Definition calendarDays (h : Host) (leaveTypes : list LeaveType.t)
    (assignments : list Assignment.t) (currentDate : Date)
  : result (list DayInfo.t) :=
  let year := getFullYear h currentDate in
  let month := getMonth h currentDate in
  let firstDay := newDateYMD h year month (Some 1) in
  let startDate :=
    setDate h firstDay (add (sub (getDate h firstDay) (getDay h firstDay)) (Some 1)) in
  calendarLoop h leaveTypes assignments month 42 startDate [].

(** The assignment list and its undo history *)
Record Store : Type := {
  assignments : list Assignment.t;
  history : list (list Assignment.t)
}.

Definition decimal (n : Z) : string := NilZero.string_of_int (Z.to_int n).

Definition assignLeave (h : Host) (st : Store) (date leaveTypeId : string)
  : result Store :=
  stamp <- toISOString (newDateNow h) ;;
  let newAssignment :=
    {| Assignment.id := "assignment-" ++ decimal (now h);
       Assignment.date := date;
       Assignment.leaveTypeId := leaveTypeId;
       Assignment.createdAt := stamp;
       Assignment.updatedAt := stamp |} in
  Ok {| history := (history st ++ [assignments st])%list;
        assignments := (assignments st ++ [newAssignment])%list |}.

Definition removeAssignment (st : Store) (assignmentId : string) : Store :=
  {| history := (history st ++ [assignments st])%list;
     assignments :=
       filter (fun a => negb (String.eqb (Assignment.id a) assignmentId))
              (assignments st) |}.

End App.

(** ** The vocabulary of the specification

    The notions the specification states its properties with, each defined
    over the engine above. *)

Module Spec.

Import JS App.

(** *** The seven checks of the eligibility evaluator, one by one *)

Definition outsideWindow (leaveType : LeaveType.t) (date : string) : bool :=
  let window := LeaveRules.date_window (LeaveType.rules leaveType) in
  negb (isDateInRange date (DateWindow.start window) (DateWindow.end_ window)).

Definition dayNotAllowed (h : Host) (leaveType : LeaveType.t) (date : string) : bool :=
  match days_of_week_of leaveType with
  | Some days => negb (includes days (getDay h (parseDate h date)))
  | None => false
  end.

Definition alreadyAssigned (assignments : list Assignment.t)
    (leaveTypeId date : string) : bool :=
  existsb (fun a => String.eqb (Assignment.date a) date
                    && String.eqb (Assignment.leaveTypeId a) leaveTypeId)
          assignments.

Definition dateTaken (assignments : list Assignment.t) (date : string) : bool :=
  existsb (fun a => String.eqb (Assignment.date a) date) assignments.

Definition quotasOf (leaveType : LeaveType.t) : Quotas.t :=
  LeaveRules.quotas (LeaveType.rules leaveType).

Definition weeklyExceeded (h : Host) (leaveTypes : list LeaveType.t)
    (assignments : list Assignment.t) (leaveType : LeaveType.t)
    (leaveTypeId date : string) : result bool :=
  quotas <- calculateQuotas h leaveTypes assignments leaveTypeId (Some date) ;;
  Ok match Quotas.weekly (quotasOf leaveType) with
     | Some _ => atMostZero (option_map Remaining.weekly (QuotaReport.remaining quotas))
     | None => false
     end.

Definition totalExceeded (h : Host) (leaveTypes : list LeaveType.t)
    (assignments : list Assignment.t) (leaveType : LeaveType.t)
    (leaveTypeId date : string) : result bool :=
  quotas <- calculateQuotas h leaveTypes assignments leaveTypeId (Some date) ;;
  Ok match Quotas.total (quotasOf leaveType) with
     | Some _ => atMostZero (option_map Remaining.total (QuotaReport.remaining quotas))
     | None => false
     end.

Definition monthlyWeeksExceeded (h : Host) (assignments : list Assignment.t)
    (leaveType : LeaveType.t) (leaveTypeId date : string) : result bool :=
  match Quotas.weeks_per_month (quotasOf leaveType) with
  | Some wpm =>
      monthStartStr <- formatDate (getMonthStart h (parseDate h date)) ;;
      monthEndStr <- formatDate (getMonthEnd h (parseDate h date)) ;;
      weeksUsed <-
        addWeekStarts h
          (filter (fun a => String.eqb (Assignment.leaveTypeId a) leaveTypeId
                            && isDateInRange (Assignment.date a)
                                             monthStartStr monthEndStr)
                  assignments)
          JSSet.empty ;;
      targetWeekStart <- formatDate (getWeekStart h (parseDate h date)) ;;
      Ok (negb (JSSet.has weeksUsed targetWeekStart)
          && (WeeksQuota.max_weeks wpm <=? JSSet.size weeksUsed))
  | None => Ok false
  end.

(** Checks applied in order, stopping at the first that fails: the reason
    of that check, or eligible when none fails.  A check that throws ends
    the evaluation; the checks after it are not looked at. *)
Fixpoint firstFailure (checks : list (result bool * string)) : result Eligibility.t :=
  match checks with
  | [] => Ok isEligible
  | (check, why) :: rest =>
      failed <- check ;;
      if (failed : bool) then Ok (ineligible why) else firstFailure rest
  end.

Definition evaluateEligibility (h : Host) (leaveTypes : list LeaveType.t)
    (assignments : list Assignment.t) (leaveType : LeaveType.t)
    (leaveTypeId date : string) : result Eligibility.t :=
  firstFailure
    [ (Ok (outsideWindow leaveType date), "Date outside leave window");
      (Ok (dayNotAllowed h leaveType date), "Day of week not allowed");
      (Ok (alreadyAssigned assignments leaveTypeId date), "Already assigned");
      (Ok (dateTaken assignments date), "Date already has another leave assigned");
      (weeklyExceeded h leaveTypes assignments leaveType leaveTypeId date,
       "Weekly quota exceeded");
      (totalExceeded h leaveTypes assignments leaveType leaveTypeId date,
       "Total quota exceeded");
      (monthlyWeeksExceeded h assignments leaveType leaveTypeId date,
       "Monthly week limit exceeded") ].

(** The reading under which an occupied date inside the window always
    reports the occupation: a date in the window that carries an assignment
    of another leave type and would also exceed a quota is refused with the
    cross-category reason, whatever else holds. *)
Definition occupiedDateReportsOccupation (h : Host) (leaveTypes : list LeaveType.t)
    (assignments : list Assignment.t) (leaveTypeId date : string) : Prop :=
  forall leaveType,
    findLeaveType leaveTypes leaveTypeId = Some leaveType ->
    outsideWindow leaveType date = false ->
    (exists a, In a assignments /\ Assignment.date a = date
               /\ Assignment.leaveTypeId a <> leaveTypeId) ->
    weeklyExceeded h leaveTypes assignments leaveType leaveTypeId date = Ok true
    \/ totalExceeded h leaveTypes assignments leaveType leaveTypeId date = Ok true
    \/ monthlyWeeksExceeded h assignments leaveType leaveTypeId date = Ok true ->
    isLeaveEligibleForDate h leaveTypes assignments leaveTypeId date
    = Ok (ineligible "Date already has another leave assigned").

(** *** Weeks used in a month *)

Definition weekStartOf (h : Host) (date : string) : result string :=
  formatDate (getWeekStart h (parseDate h date)).

Fixpoint mapR {A B : Type} (f : A -> result B) (l : list A) : result (list B) :=
  match l with
  | [] => Ok []
  | x :: l' =>
      y <- f x ;;
      ys <- mapR f l' ;;
      Ok (y :: ys)
  end.





(** *** Assignments of one leave type *)

Definition ofLeaveType (leaveTypeId : string) (a : Assignment.t) : bool :=
  String.eqb (Assignment.leaveTypeId a) leaveTypeId.

(** *** The assignment list under mutation *)

Definition assignmentsOn (date : string) (l : list Assignment.t) : list Assignment.t :=
  filter (fun a => String.eqb (Assignment.date a) date) l.

(** At most one assignment per date, whatever its leave type *)
Definition onePerDate (l : list Assignment.t) : Prop :=
  forall date, (List.length (assignmentsOn date l) <= 1)%nat.

(** One mutation of the store: [assignLeave], invoked only after
    [isLeaveEligibleForDate] said eligible on the current assignments (for
    whatever leave types are defined at that moment, on whatever host), or
    [removeAssignment], at any time. *)
Inductive mutation (st : Store) : Store -> Prop :=
| mutation_assign (h : Host) (leaveTypes : list LeaveType.t)
    (date leaveTypeId : string) (e : Eligibility.t) (st' : Store) :
    isLeaveEligibleForDate h leaveTypes (assignments st) leaveTypeId date = Ok e ->
    Eligibility.eligible e = true ->
    assignLeave h st date leaveTypeId = Ok st' ->
    mutation st st'
| mutation_remove (assignmentId : string) :
    mutation st (removeAssignment st assignmentId).

Inductive reachable (st0 : Store) : Store -> Prop :=
| reachable_start : reachable st0 st0
| reachable_step (st st' : Store) :
    reachable st0 st -> mutation st st' -> reachable st0 st'.

Definition emptyStore : Store := {| assignments := []; history := [] |}.

(** *** Local days *)

(** The time value of midnight, local time, of the local day [day] *)
Definition midnight (h : Host) (day : Z) : Z := UTC h (MakeDate day 0).

(** By how many days the UTC day of a local midnight differs from the
    local day: 0 for a host at UTC or up to a day behind it, -1 for a host
    up to a day ahead of UTC. *)
Definition utcShift (h : Host) : Z := Day (- LocalTZA h).

(** The day number a date string names *)
Definition dayNumber (s : string) : option Z :=
  match isoFields s with
  | Some (y, m, d, _) => Some (MakeDay y (m - 1) d)
  | None => None
  end.

(** *** The calendar grid *)

(** Year and month, in local time, of the reference date of the grid *)
Definition referenceYear (h : Host) (t : Z) : Z := YearFromDay (Day (LocalTime h t)).
Definition referenceMonth (h : Host) (t : Z) : Z := MonthFromDay (Day (LocalTime h t)).

(** The first day of the month of the reference date, as a day number *)
Definition firstDayOfMonth (h : Host) (t : Z) : Z :=
  MakeDay (referenceYear h t) (referenceMonth h t) 1.

(** The entries are on the consecutive days that begin at [start]. *)
Definition consecutiveFrom (start : Z) (days : list DayInfo.t) : Prop :=
  map DayInfo.date days
  = map (fun k => isoDate (start + Z.of_nat k)) (seq 0 (List.length days)).

(** The entries outside the month are the first [lead] and the last
    [trail], and no others. *)
Definition runs (lead trail : nat) (days : list DayInfo.t) : Prop :=
  map DayInfo.isCurrentMonth days
  = (repeat false lead ++ repeat true (List.length days - lead - trail)
       ++ repeat false trail)%list.

Definition countTrue (l : list bool) : nat := List.length (filter (fun b => b) l).

(** The reading under which the grid has forty-two consecutive days from
    the Monday on or before the first of the month, with at most six days
    outside the month at either end. *)
Definition gridAsClaimed (h : Host) (leaveTypes : list LeaveType.t)
    (assignments : list Assignment.t) (t : Z) : Prop :=
  exists days start lead trail,
    calendarDays h leaveTypes assignments (Some t) = Ok days
    /\ List.length days = 42%nat
    /\ consecutiveFrom start days
    /\ WeekDay start = 1
    /\ start <= firstDayOfMonth h t < start + 7
    /\ runs lead trail days
    /\ (lead <= 6)%nat /\ (trail <= 6)%nat.

(** *** Well-formed data *)

(** No [T] in the string *)
Fixpoint noT (s : string) : bool :=
  match s with
  | EmptyString => true
  | String c s' => negb (Ascii.eqb c "T") && noT s'
  end.

(** Every assignment is on a canonical date. *)
Definition canonicalDates (l : list Assignment.t) : Prop :=
  Forall (fun a => canonical (Assignment.date a) = true) l.

(** The date a quota report is computed for is valid: the clock, or a
    canonical date given. *)
Definition targetGiven (targetDate : option string) : Prop :=
  match targetDate with
  | None => True
  | Some s => s = "" \/ canonical s = true
  end.

(** *** Sample data *)

(** A leave type for Mondays, Wednesdays and Fridays of 2025 with its
    total quota already at zero, and a leave type limited to one week per
    month. *)
Definition weekdayLeave : LeaveType.t :=
  {| LeaveType.id := "leave-3";
     LeaveType.name := "Weekday Leave";
     LeaveType.color := "#6366F1";
     LeaveType.rules :=
       {| LeaveRules.date_window :=
            {| DateWindow.start := "2025-01-01"; DateWindow.end_ := "2025-12-31" |};
          LeaveRules.eligibility_filters :=
            Some {| EligibilityFilters.days_of_week := Some [1; 3; 5] |};
          LeaveRules.quotas :=
            {| Quotas.weekly := None;
               Quotas.weeks_per_month := None;
               Quotas.total := Some {| DaysQuota.max_days := 0 |} |} |};
     LeaveType.notes := None |}.


Definition assignmentOf (id date leaveTypeId : string) : Assignment.t :=
  {| Assignment.id := id;
     Assignment.date := date;
     Assignment.leaveTypeId := leaveTypeId;
     Assignment.createdAt := "2025-01-01T00:00:00.000Z";
     Assignment.updatedAt := "2025-01-01T00:00:00.000Z" |}.

(** *** Hosts *)


(** A host whose [Date.parse] accepts the ISO form only *)
Definition strictHost (offset clock : Z) : Host :=
  {| LocalTZA := offset; now := clock; parseFallback := fun _ => None |}.

End Spec.

(** ** The other handlers and views of [App.js]

    The functions of the component that the engine's callers use: the seed
    assignments, the leave type handlers, undo, month navigation, the save
    guard of the leave type form and the date selection modal. *)

Module Handlers.

Import JS App.

(** *** Seed assignments *)

(** How [createSeedAssignments] ends: with its list, or with the
    [TypeError] of reading [rules] off [undefined] (no leave type to take),
    or with the [RangeError] of [formatDate]. *)
Inductive seeding : Type :=
| Seeded (assignments : list Assignment.t)
| SeedTypeError
| SeedRangeError.

(** [leaveTypes[index % leaveTypes.length]]: [undefined] on an empty
    array, where the index is NaN. *)
Definition leaveTypeAt (leaveTypes : list LeaveType.t) (index : nat)
  : option LeaveType.t :=
  match leaveTypes with
  | [] => None
  | _ :: _ => nth_error leaveTypes (index mod List.length leaveTypes)
  end.

(** The [forEach] over the sample dates, from [index] on *)
Fixpoint seedEach (h : Host) (leaveTypes : list LeaveType.t)
    (sampleDates : list Date) (index : nat) (assignments : list Assignment.t)
  : seeding :=
  match sampleDates with
  | [] => Seeded assignments
  | date :: rest =>
      match formatDate date with
      | Throw _ => SeedRangeError
      | Ok dateStr =>
          match leaveTypeAt leaveTypes index with
          | None => SeedTypeError
          | Some leaveType =>
              let window := LeaveRules.date_window (LeaveType.rules leaveType) in
              if isDateInRange dateStr (DateWindow.start window) (DateWindow.end_ window)
              then
                match toISOString (newDateNow h) with
                | Throw _ => SeedRangeError
                | Ok stamp =>
                    seedEach h leaveTypes rest (S index)
                      (assignments ++
                         [ {| Assignment.id :=
                                "assignment-" ++ decimal (Z.of_nat index);
                              Assignment.date := dateStr;
                              Assignment.leaveTypeId := LeaveType.id leaveType;
                              Assignment.createdAt := stamp;
                              Assignment.updatedAt := stamp |} ])%list
                end
              else seedEach h leaveTypes rest (S index) assignments
          end
      end
  end.

Definition createSeedAssignments (h : Host) (leaveTypes : list LeaveType.t)
  : seeding :=
  let now := newDateNow h in
  let currentMonth := getMonth h now in
  let currentYear := getFullYear h now in
  let sampleDates :=
    [ newDateYMD h currentYear currentMonth (Some 5);
      newDateYMD h currentYear currentMonth (Some 12);
      newDateYMD h currentYear currentMonth (Some 19) ] in
  seedEach h leaveTypes sampleDates 0 [].

(** *** Leave types *)

(** [addLeaveType]: the new list and the leave type it opens for editing.
    The window runs from today to thirty days on. *)
Definition addLeaveType (h : Host) (leaveTypes : list LeaveType.t)
  : result (list LeaveType.t * LeaveType.t) :=
  start <- formatDate (newDateNow h) ;;
  end_ <- formatDate (newDateMs (Some (now h + 30 * 24 * 60 * 60 * 1000))) ;;
  let newLeave :=
    {| LeaveType.id := "leave-" ++ decimal (now h);
       LeaveType.name :=
         "Leave " ++ decimal (Z.of_nat (List.length leaveTypes) + 1);
       LeaveType.color := "#6366F1";
       LeaveType.rules :=
         {| LeaveRules.date_window :=
              {| DateWindow.start := start; DateWindow.end_ := end_ |};
            LeaveRules.eligibility_filters := None;
            LeaveRules.quotas :=
              {| Quotas.weekly := Some {| DaysQuota.max_days := 1 |};
                 Quotas.weeks_per_month := Some {| WeeksQuota.max_weeks := 2 |};
                 Quotas.total := None |} |};
       LeaveType.notes := None |} in
  Ok ((leaveTypes ++ [newLeave])%list, newLeave).

Definition updateLeaveType (leaveTypes : list LeaveType.t) (updatedLeave : LeaveType.t)
  : list LeaveType.t :=
  map (fun lt => if String.eqb (LeaveType.id lt) (LeaveType.id updatedLeave)
                 then updatedLeave else lt)
      leaveTypes.

(** [deleteLeaveType]: the leave type goes, and its assignments with it;
    the undo history is left as it is. *)
Definition deleteLeaveType (leaveTypes : list LeaveType.t) (st : Store)
    (leaveId : string) : list LeaveType.t * Store :=
  (filter (fun lt => negb (String.eqb (LeaveType.id lt) leaveId)) leaveTypes,
   {| assignments :=
        filter (fun a => negb (String.eqb (Assignment.leaveTypeId a) leaveId))
               (assignments st);
      history := history st |}).

(** *** Undo *)

Definition undo (st : Store) : Store :=
  match history st with
  | [] => st
  | _ :: _ =>
      let previousState := last (history st) [] in
      {| assignments := previousState;
         history := removelast (history st) |}
  end.

(** *** Month navigation *)

Definition navigateMonth (h : Host) (currentDate : Date) (direction : Z) : Date :=
  newDateYMD h (getFullYear h currentDate)
    (add (getMonth h currentDate) (Some direction)) (Some 1).

(** *** The leave type form *)

(** A string is truthy when it is not empty. *)
Definition truthy (s : string) : bool :=
  match s with
  | EmptyString => false
  | String _ _ => true
  end.

(** [handleSave]: the leave types after the click on Save.  The form is
    saved when its name and both ends of its window are filled in. *)
Definition handleSave (leaveTypes : list LeaveType.t) (formData : LeaveType.t)
  : list LeaveType.t :=
  let window := LeaveRules.date_window (LeaveType.rules formData) in
  if truthy (LeaveType.name formData)
     && truthy (DateWindow.start window)
     && truthy (DateWindow.end_ window)
  then updateLeaveType leaveTypes formData
  else leaveTypes.

(** *** The date selection modal *)

(** What the modal shows for the selected date: the assignment on it with
    its Remove button, or the reasons why no leave type is eligible, or one
    button per eligible leave type. *)
Inductive modal : Type :=
| ShowAssignment (existingAssignment : Assignment.t) (leaveType : option LeaveType.t)
| ShowReasons (reasons : list (string * string))
| ShowChoices (eligibleLeaves : list LeaveType.t).

Fixpoint mapR {A B : Type} (f : A -> result B) (l : list A) : result (list B) :=
  match l with
  | [] => Ok []
  | x :: l' =>
      y <- f x ;;
      ys <- mapR f l' ;;
      Ok (y :: ys)
  end.

(** [reasons.filter(r => r.reason)]: the entries with a reason, and a
    non-empty one. *)
Fixpoint withReason (l : list (string * option string)) : list (string * string) :=
  match l with
  | [] => []
  | (name, Some why) :: l' =>
      if truthy why then (name, why) :: withReason l' else withReason l'
  | (_, None) :: l' => withReason l'
  end.

Definition dateSelectionModal (h : Host) (leaveTypes : list LeaveType.t)
    (assignments : list Assignment.t) (selectedDate : option string)
  : result (option modal) :=
  match selectedDate with
  | None | Some EmptyString => Ok None
  | Some selectedDate =>
      let existingAssignment :=
        find (fun a => String.eqb (Assignment.date a) selectedDate) assignments in
      eligibleLeaves <-
        filterR (fun lt =>
                   e <- isLeaveEligibleForDate h leaveTypes assignments
                          (LeaveType.id lt) selectedDate ;;
                   Ok (Eligibility.eligible e))
                leaveTypes ;;
      match existingAssignment with
      | Some a =>
          Ok (Some (ShowAssignment a
                      (findLeaveType leaveTypes (Assignment.leaveTypeId a))))
      | None =>
          match eligibleLeaves with
          | [] =>
              reasons <-
                mapR (fun lt =>
                        e <- isLeaveEligibleForDate h leaveTypes assignments
                               (LeaveType.id lt) selectedDate ;;
                        Ok (LeaveType.name lt, Eligibility.reason e))
                     leaveTypes ;;
              Ok (Some (ShowReasons (withReason reasons)))
          | _ :: _ => Ok (Some (ShowChoices eligibleLeaves))
          end
      end
  end.

(** The click on a button of the modal: Remove on the assignment shown, or
    the button of the leave type at [choice] among the eligible ones.  A
    view without such a button leaves the store as it is. *)
Definition clickModal (h : Host) (st : Store) (selectedDate : string)
    (view : modal) (choice : nat) : result Store :=
  match view with
  | ShowAssignment existingAssignment _ =>
      Ok (removeAssignment st (Assignment.id existingAssignment))
  | ShowReasons _ => Ok st
  | ShowChoices eligibleLeaves =>
      match nth_error eligibleLeaves choice with
      | Some leaveType => assignLeave h st selectedDate (LeaveType.id leaveType)
      | None => Ok st
      end
  end.

End Handlers.

(** * Properties of the engine *)

Module Facts.

Import JS App Spec.

(** ** Results *)

Lemma bind_Ok {A B : Type} (r : result A) (k : A -> result B) (b : B) :
  bind r k = Ok b -> exists a, r = Ok a /\ k a = Ok b.
Proof.
  destruct r as [a | e]; simpl; intros H; [exists a; auto | discriminate].
Qed.

Ltac bind_inv H :=
  let a := fresh "v" in
  let Ha := fresh "Hv" in
  apply bind_Ok in H; destruct H as (a & Ha & H).

(** ** Strings in order *)

Lemma ltb_false_leb (a b : string) : String.ltb a b = false <-> String.leb b a = true.
Proof.
  unfold String.ltb, String.leb.
  rewrite (String.compare_antisym a b).
  destruct (String.compare b a); simpl; split; intros; congruence.
Qed.



(** ** Unknown leave types *)

Lemma findLeaveType_None (leaveTypes : list LeaveType.t) (leaveTypeId : string) :
  findLeaveType leaveTypes leaveTypeId = None <->
  (forall lt, In lt leaveTypes -> LeaveType.id lt <> leaveTypeId).
Proof.
  unfold findLeaveType. split.
  - intros H lt Hin Heq.
    pose proof (find_none _ _ H lt Hin) as Hn. simpl in Hn.
    apply String.eqb_neq in Hn. contradiction.
  - intros H. induction leaveTypes as [| lt l IH]; simpl; [reflexivity |].
    destruct (String.eqb (LeaveType.id lt) leaveTypeId) eqn:E.
    + apply String.eqb_eq in E. exfalso. apply (H lt); [left; reflexivity | exact E].
    + apply IH. intros lt' Hin. apply H. right. exact Hin.
Qed.

Lemma findLeaveType_Some (leaveTypes : list LeaveType.t) (leaveTypeId : string)
    (leaveType : LeaveType.t) :
  findLeaveType leaveTypes leaveTypeId = Some leaveType ->
  In leaveType leaveTypes /\ LeaveType.id leaveType = leaveTypeId.
Proof.
  unfold findLeaveType. intros H. apply find_some in H. destruct H as [Hin He].
  split; [exact Hin | apply String.eqb_eq; exact He].
Qed.

(** C8: for a leave type id that matches no leave type of the list, and every
    date and assignment list, [isLeaveEligibleForDate] returns normally, with
    [eligible = false] and the reason ["Leave type not found"]; it does not
    throw. *)
Theorem unknown_leave_type_is_reported (h : Host) (leaveTypes : list LeaveType.t)
    (assignments : list Assignment.t) (leaveTypeId date : string) :
  (forall lt, In lt leaveTypes -> LeaveType.id lt <> leaveTypeId) ->
  isLeaveEligibleForDate h leaveTypes assignments leaveTypeId date
  = Ok {| Eligibility.eligible := false;
          Eligibility.reason := Some "Leave type not found" |}.
Proof.
  intros H. apply findLeaveType_None in H.
  unfold isLeaveEligibleForDate. rewrite H. reflexivity.
Qed.

Lemma unknown_leave_type_is_reported_witness :
  isLeaveEligibleForDate (strictHost 0 0) createSeedLeaveTypes [] "leave-9" "2025-07-07"
  = Ok {| Eligibility.eligible := false;
          Eligibility.reason := Some "Leave type not found" |}.
Proof.
  apply unknown_leave_type_is_reported.
  intros lt Hin.
  simpl in Hin. destruct Hin as [<- | [<- | []]]; simpl; discriminate.
Defined.

(** ** The window *)



(** ** One assignment per date *)

Lemma ineligible_not_eligible (why : string) (e : Eligibility.t) :
  Ok (ineligible why) = Ok e -> Eligibility.eligible e = true -> False.
Proof.
  intros H He. injection H as <-. discriminate He.
Qed.

(** An eligible date carries no assignment yet, of any leave type. *)
Lemma eligible_date_is_free (h : Host) (leaveTypes : list LeaveType.t)
    (l : list Assignment.t) (leaveTypeId date : string) (e : Eligibility.t) :
  isLeaveEligibleForDate h leaveTypes l leaveTypeId date = Ok e ->
  Eligibility.eligible e = true ->
  dateTaken l date = false.
Proof.
  unfold isLeaveEligibleForDate, dateTaken. intros H He.
  destruct (findLeaveType leaveTypes leaveTypeId) as [leaveType |];
    [| exfalso; eapply ineligible_not_eligible; eassumption].
  destruct (negb (isDateInRange date _ _));
    [exfalso; eapply ineligible_not_eligible; eassumption |].
  match type of H with (if ?c then _ else _) = _ => destruct c end;
    [exfalso; eapply ineligible_not_eligible; eassumption |].
  match type of H with (if ?c then _ else _) = _ => destruct c end;
    [exfalso; eapply ineligible_not_eligible; eassumption |].
  match type of H with (if ?c then _ else _) = _ => destruct c eqn:Taken end;
    [exfalso; eapply ineligible_not_eligible; eassumption |].
  reflexivity.
Qed.

Lemma dateTaken_false_assignmentsOn (l : list Assignment.t) (date : string) :
  dateTaken l date = false -> assignmentsOn date l = [].
Proof.
  unfold dateTaken, assignmentsOn. induction l as [| a l IH]; simpl; [reflexivity |].
  intros H. apply orb_false_iff in H. destruct H as [Ha Hl].
  rewrite Ha. apply IH. exact Hl.
Qed.

Lemma assignmentsOn_app (date : string) (l1 l2 : list Assignment.t) :
  assignmentsOn date (l1 ++ l2)%list
  = (assignmentsOn date l1 ++ assignmentsOn date l2)%list.
Proof.
  unfold assignmentsOn. apply filter_app.
Qed.

Lemma length_filter_le {A : Type} (p : A -> bool) (l : list A) :
  (List.length (filter p l) <= List.length l)%nat.
Proof.
  induction l as [| x l IH]; simpl; [lia |].
  destruct (p x); simpl; lia.
Qed.

Lemma filter_comm {A : Type} (p q : A -> bool) (l : list A) :
  filter p (filter q l) = filter q (filter p l).
Proof.
  induction l as [| x l IH]; simpl; [reflexivity |].
  destruct (p x) eqn:P, (q x) eqn:Q; simpl; rewrite ?P, ?Q, IH; reflexivity.
Qed.

Lemma onePerDate_filter (p : Assignment.t -> bool) (l : list Assignment.t) :
  onePerDate l -> onePerDate (filter p l).
Proof.
  intros H date. unfold assignmentsOn. rewrite filter_comm.
  eapply Nat.le_trans; [apply length_filter_le | apply H].
Qed.

Lemma onePerDate_add (l : list Assignment.t) (a : Assignment.t) :
  onePerDate l -> dateTaken l (Assignment.date a) = false ->
  onePerDate (l ++ [a])%list.
Proof.
  intros H Free date. rewrite assignmentsOn_app, length_app.
  destruct (String.eqb (Assignment.date a) date) eqn:E.
  - apply String.eqb_eq in E. subst date.
    rewrite (dateTaken_false_assignmentsOn _ _ Free).
    unfold assignmentsOn. simpl. rewrite String.eqb_refl. simpl. lia.
  - unfold assignmentsOn at 2. simpl. rewrite E. simpl.
    specialize (H date). lia.
Qed.

Lemma assignLeave_assignments (h : Host) (st st' : Store) (date leaveTypeId : string) :
  assignLeave h st date leaveTypeId = Ok st' ->
  exists a, Assignment.date a = date /\ Assignment.leaveTypeId a = leaveTypeId
            /\ assignments st' = (assignments st ++ [a])%list.
Proof.
  unfold assignLeave. intros H. bind_inv H. injection H as <-.
  eexists. split; [| split]; [| | reflexivity]; reflexivity.
Qed.

(** [assignLeave] always returns: the clock is a valid date. *)
Lemma assignLeave_returns (h : Host) (st : Store) (date leaveTypeId : string) :
  exists st', assignLeave h st date leaveTypeId = Ok st'.
Proof.
  unfold assignLeave, newDateNow. simpl. eexists. reflexivity.
Qed.

Lemma mutation_keeps_onePerDate (st st' : Store) :
  mutation st st' -> onePerDate (assignments st) -> onePerDate (assignments st').
Proof.
  intros M Inv. destruct M as [h lts date cid e st' El Ee As | aid].
  - destruct (assignLeave_assignments _ _ _ _ _ As) as (a & Da & _ & ->).
    apply onePerDate_add; [exact Inv |].
    rewrite Da. eapply eligible_date_is_free; eassumption.
  - simpl. apply onePerDate_filter. exact Inv.
Qed.

Lemma reachable_keeps_onePerDate (st0 st : Store) :
  reachable st0 st -> onePerDate (assignments st0) -> onePerDate (assignments st).
Proof.
  intros R Inv. induction R as [| st st' R IH M].
  - exact Inv.
  - eapply mutation_keeps_onePerDate; [exact M | exact IH].
Qed.

(** C1: starting from an assignment list with at most one assignment per
    date, every list reached by [assignLeave] calls, each made only after
    [isLeaveEligibleForDate] returned eligible on the current list, and
    [removeAssignment] calls made at any time, has at most one assignment
    per date, across all leave types. *)
Theorem one_assignment_per_date (st0 st : Store) :
  onePerDate (assignments st0) ->
  reachable st0 st ->
  onePerDate (assignments st).
Proof.
  intros Inv R. revert Inv. apply reachable_keeps_onePerDate. exact R.
Qed.

Lemma onePerDate_nil : onePerDate [].
Proof.
  intros date. simpl. lia.
Qed.

(** The run of the witness: assign 2025-07-07 on the seed leave types,
    then remove an assignment by id. *)
Lemma one_assignment_per_date_witness :
  exists st1,
    assignLeave (strictHost 0 0) emptyStore "2025-07-07" "leave-1" = Ok st1 /\
    onePerDate (assignments (removeAssignment st1 "assignment-1")).
Proof.
  destruct (assignLeave_returns (strictHost 0 0) emptyStore "2025-07-07" "leave-1")
    as [st1 H1].
  exists st1. split; [exact H1 |].
  apply (one_assignment_per_date emptyStore).
  - exact onePerDate_nil.
  - eapply reachable_step; [eapply reachable_step; [apply reachable_start |] |].
    + eapply (mutation_assign emptyStore (strictHost 0 0) createSeedLeaveTypes
                "2025-07-07" "leave-1");
        [vm_compute; reflexivity | reflexivity | exact H1].
    + apply mutation_remove.
Defined.

(** From the empty store the invariant holds outright. *)
Corollary onePerDate_from_empty (st : Store) :
  reachable emptyStore st -> onePerDate (assignments st).
Proof.
  intros R. apply (reachable_keeps_onePerDate emptyStore st R). exact onePerDate_nil.
Qed.

(** ** Quotas count a leave type's own assignments only *)

Lemma filter_idem {A : Type} (p : A -> bool) (l : list A) :
  filter p (filter p l) = filter p l.
Proof.
  induction l as [| x l IH]; simpl; [reflexivity |].
  destruct (p x) eqn:P; simpl; rewrite ?P, IH; reflexivity.
Qed.

Lemma calculateQuotas_own (h : Host) (leaveTypes : list LeaveType.t)
    (l l' : list Assignment.t) (leaveTypeId : string) (targetDate : option string) :
  filter (ofLeaveType leaveTypeId) l = filter (ofLeaveType leaveTypeId) l' ->
  calculateQuotas h leaveTypes l leaveTypeId targetDate
  = calculateQuotas h leaveTypes l' leaveTypeId targetDate.
Proof.
  intros H. unfold calculateQuotas.
  change (fun a => String.eqb (Assignment.leaveTypeId a) leaveTypeId)
    with (ofLeaveType leaveTypeId).
  rewrite H. reflexivity.
Qed.

(** C6: the quota report of a leave type over an assignment list is its
    report over the sublist of that leave type's assignments; so two lists
    with the same such sublist give the same report, and in particular an
    assignment of another leave type, added or removed anywhere, changes
    nothing in it. *)
Theorem quotas_ignore_other_leave_types (h : Host) (leaveTypes : list LeaveType.t)
    (l : list Assignment.t) (leaveTypeId : string) (targetDate : option string) :
  calculateQuotas h leaveTypes l leaveTypeId targetDate
  = calculateQuotas h leaveTypes (filter (ofLeaveType leaveTypeId) l)
      leaveTypeId targetDate
  /\ (forall l',
        filter (ofLeaveType leaveTypeId) l' = filter (ofLeaveType leaveTypeId) l ->
        calculateQuotas h leaveTypes l' leaveTypeId targetDate
        = calculateQuotas h leaveTypes l leaveTypeId targetDate)
  /\ (forall l1 l2 a,
        l = (l1 ++ l2)%list ->
        Assignment.leaveTypeId a <> leaveTypeId ->
        calculateQuotas h leaveTypes (l1 ++ a :: l2)%list leaveTypeId targetDate
        = calculateQuotas h leaveTypes l leaveTypeId targetDate).
Proof.
  split; [| split].
  - apply calculateQuotas_own. symmetry. apply filter_idem.
  - intros l' H. apply calculateQuotas_own. exact H.
  - intros l1 l2 a -> Ha. apply calculateQuotas_own.
    rewrite !filter_app. simpl.
    unfold ofLeaveType at 2. apply String.eqb_neq in Ha. rewrite Ha. reflexivity.
Qed.

(** ** No hidden state *)


















(** Without a date the report reads the clock: two readings, two reports. *)
Example calculateQuotas_reads_the_clock :
  let a := {| Assignment.id := "a"; Assignment.date := "2025-07-07";
              Assignment.leaveTypeId := "leave-1";
              Assignment.createdAt := ""; Assignment.updatedAt := "" |} in
  calculateQuotas (strictHost 0 1751846400000) createSeedLeaveTypes [a] "leave-1" None
  <> calculateQuotas (strictHost 0 1752451200000) createSeedLeaveTypes [a] "leave-1" None.
Proof.
  vm_compute. discriminate.
Qed.

(** ** The order of the checks *)

Lemma existsb_date_true (l : list Assignment.t) (date : string) :
  dateTaken l date = true <-> exists a, In a l /\ Assignment.date a = date.
Proof.
  unfold dateTaken. rewrite existsb_exists. split.
  - intros (a & Hin & He). exists a. split; [exact Hin | apply String.eqb_eq; exact He].
  - intros (a & Hin & He). exists a. split; [exact Hin | apply String.eqb_eq; exact He].
Qed.

Lemma alreadyAssigned_false (l : list Assignment.t) (leaveTypeId date : string) :
  alreadyAssigned l leaveTypeId date = false <->
  (forall a, In a l -> Assignment.date a = date ->
             Assignment.leaveTypeId a <> leaveTypeId).
Proof.
  unfold alreadyAssigned. split.
  - intros H a Hin Hd Hc.
    assert (T : existsb (fun a => String.eqb (Assignment.date a) date
                                  && String.eqb (Assignment.leaveTypeId a) leaveTypeId) l
                = true).
    { apply existsb_exists. exists a. split; [exact Hin |].
      rewrite Hd, Hc, !String.eqb_refl. reflexivity. }
    congruence.
  - intros H. apply not_true_is_false. intros T.
    apply existsb_exists in T. destruct T as (a & Hin & He).
    apply andb_true_iff in He. destruct He as [Hd Hc].
    apply String.eqb_eq in Hd. apply String.eqb_eq in Hc.
    exact (H a Hin Hd Hc).
Qed.

(** The nested conditionals of [isLeaveEligibleForDate] are the seven
    checks in order, stopping at the first failure. *)
Lemma isLeaveEligibleForDate_firstFailure (h : Host) (leaveTypes : list LeaveType.t)
    (l : list Assignment.t) (leaveTypeId date : string) (leaveType : LeaveType.t) :
  findLeaveType leaveTypes leaveTypeId = Some leaveType ->
  isLeaveEligibleForDate h leaveTypes l leaveTypeId date
  = evaluateEligibility h leaveTypes l leaveType leaveTypeId date.
Proof.
  intros Hfind.
  unfold isLeaveEligibleForDate, evaluateEligibility. rewrite Hfind.
  unfold firstFailure, outsideWindow, dayNotAllowed, alreadyAssigned, dateTaken,
    weeklyExceeded, totalExceeded, monthlyWeeksExceeded, quotasOf.
  cbn [bind].
  destruct (negb (isDateInRange date _ _)); [reflexivity |].
  match goal with |- (if ?c then _ else _) = (if ?c then _ else _) =>
    destruct c; [reflexivity |] end.
  match goal with |- (if ?c then _ else _) = (if ?c then _ else _) =>
    destruct c; [reflexivity |] end.
  match goal with |- (if ?c then _ else _) = (if ?c then _ else _) =>
    destruct c; [reflexivity |] end.
  destruct (calculateQuotas h leaveTypes l leaveTypeId (Some date)) as [quotas | e];
    cbn [bind]; [| reflexivity].
  match goal with |- (if ?c then _ else _) = (if ?c then _ else _) =>
    destruct c; [reflexivity |] end.
  match goal with |- (if ?c then _ else _) = (if ?c then _ else _) =>
    destruct c; [reflexivity |] end.
  destruct (Quotas.weeks_per_month _) as [wpm |]; [| reflexivity].
  destruct (formatDate (getMonthStart h _)); cbn [bind]; [| reflexivity].
  destruct (formatDate (getMonthEnd h _)); cbn [bind]; [| reflexivity].
  destruct (addWeekStarts h _ _); cbn [bind]; [| reflexivity].
  destruct (formatDate (getWeekStart h _)); cbn [bind]; [| reflexivity].
  match goal with |- (if ?c then _ else _) = (if ?c then _ else _) =>
    destruct c; reflexivity end.
Qed.

(** C2: [isLeaveEligibleForDate] applies its checks in the fixed order
    window, day of week, duplicate, cross-category exclusivity, weekly quota,
    total quota, weeks per month, and stops at the first that fails.  In
    particular a date inside the window, on an allowed weekday, that carries
    no assignment of this leave type but one of another, is refused with the
    cross-category reason whatever the quotas say. *)
Theorem checks_run_in_order (h : Host) (leaveTypes : list LeaveType.t)
    (l : list Assignment.t) (leaveTypeId date : string) (leaveType : LeaveType.t) :
  findLeaveType leaveTypes leaveTypeId = Some leaveType ->
  isLeaveEligibleForDate h leaveTypes l leaveTypeId date
  = evaluateEligibility h leaveTypes l leaveType leaveTypeId date
  /\ (outsideWindow leaveType date = false ->
      dayNotAllowed h leaveType date = false ->
      (forall a, In a l -> Assignment.date a = date ->
                 Assignment.leaveTypeId a <> leaveTypeId) ->
      (exists a, In a l /\ Assignment.date a = date) ->
      isLeaveEligibleForDate h leaveTypes l leaveTypeId date
      = Ok (ineligible "Date already has another leave assigned")).
Proof.
  intros Hfind.
  pose proof (isLeaveEligibleForDate_firstFailure h leaveTypes l leaveTypeId date
                leaveType Hfind) as E.
  split; [exact E |].
  intros Hw Hd Hdup Htaken. rewrite E.
  apply alreadyAssigned_false in Hdup. apply existsb_date_true in Htaken.
  unfold evaluateEligibility. cbn [firstFailure bind].
  rewrite Hw, Hd, Hdup, Htaken. reflexivity.
Qed.

Lemma checks_run_in_order_witness :
  let l := [assignmentOf "assignment-1" "2025-07-07" "leave-2"] in
  isLeaveEligibleForDate (strictHost 0 0) createSeedLeaveTypes l "leave-1" "2025-07-07"
  = Ok (ineligible "Date already has another leave assigned").
Proof.
  intros l.
  refine (proj2 (checks_run_in_order (strictHost 0 0) createSeedLeaveTypes l
                   "leave-1" "2025-07-07" _ _) _ _ _ _).
  - reflexivity.
  - reflexivity.
  - reflexivity.
  - intros a [<- | []] _. simpl. discriminate.
  - eexists. split; [left; reflexivity | reflexivity].
Defined.

(** A Tuesday inside the window of a Monday-Wednesday-Friday leave type,
    occupied by another leave type and with the total quota used up, is
    refused for its weekday: the day-of-week check comes before the
    cross-category check. *)
Lemma occupied_date_reports_weekday_first :
  ~ occupiedDateReportsOccupation (strictHost 0 0) (weekdayLeave :: createSeedLeaveTypes)
      [assignmentOf "assignment-1" "2025-07-08" "leave-2"] "leave-3" "2025-07-08".
Proof.
  intros H.
  specialize (H weekdayLeave eq_refl eq_refl).
  assert (E : isLeaveEligibleForDate (strictHost 0 0) (weekdayLeave :: createSeedLeaveTypes)
                [assignmentOf "assignment-1" "2025-07-08" "leave-2"] "leave-3" "2025-07-08"
              = Ok (ineligible "Day of week not allowed")) by (vm_compute; reflexivity).
  rewrite E in H.
  assert (X : Ok (ineligible "Day of week not allowed")
              = Ok (ineligible "Date already has another leave assigned")).
  { apply H.
    - eexists. split; [left; reflexivity |]. split; [reflexivity | discriminate].
    - right. left. vm_compute. reflexivity. }
  discriminate X.
Qed.

(** ** Canonical dates parse and format *)

Lemma digitChar_mod10_not_T (n : Z) : Ascii.eqb (digitChar (n mod 10)) "T" = false.
Proof.
  pose proof (Z.mod_pos_bound n 10 ltac:(lia)) as B.
  assert (C : n mod 10 = 0 \/ n mod 10 = 1 \/ n mod 10 = 2 \/ n mod 10 = 3
              \/ n mod 10 = 4 \/ n mod 10 = 5 \/ n mod 10 = 6 \/ n mod 10 = 7
              \/ n mod 10 = 8 \/ n mod 10 = 9) by lia.
  repeat (destruct C as [C | C]; [rewrite C; reflexivity |]).
  rewrite C. reflexivity.
Qed.

Lemma noT_app (s1 s2 : string) : noT (s1 ++ s2) = noT s1 && noT s2.
Proof.
  induction s1 as [| c s1 IH]; simpl; [reflexivity |].
  rewrite IH. apply andb_assoc.
Qed.

Lemma beforeT_app (s r : string) : noT s = true -> beforeT (s ++ String "T" r) = s.
Proof.
  induction s as [| c s IH]; simpl; intros H; [reflexivity |].
  apply andb_true_iff in H. destruct H as [Hc Hs].
  apply negb_true_iff in Hc. rewrite Hc, (IH Hs). reflexivity.
Qed.

Lemma noT_pad2 (n : Z) : noT (pad2 n) = true.
Proof.
  unfold pad2. simpl. rewrite !digitChar_mod10_not_T. reflexivity.
Qed.

Lemma noT_pad4 (n : Z) : noT (pad4 n) = true.
Proof.
  unfold pad4. cbn [noT]. rewrite !digitChar_mod10_not_T, noT_pad2. reflexivity.
Qed.

Lemma noT_pad6 (n : Z) : noT (pad6 n) = true.
Proof.
  unfold pad6. cbn [noT]. rewrite !digitChar_mod10_not_T, noT_pad4. reflexivity.
Qed.

Lemma noT_isoDate (day : Z) : noT (isoDate day) = true.
Proof.
  unfold isoDate. rewrite !noT_app, !noT_pad2.
  assert (Y : noT (isoYear (YearFromDay day)) = true).
  { unfold isoYear. destruct (_ && _); [apply noT_pad4 |].
    destruct (_ <? _); rewrite noT_app, noT_pad6; reflexivity. }
  rewrite Y. reflexivity.
Qed.

(** [formatDate] of a valid date is the ISO form of its UTC day. *)
Lemma formatDate_Some (t : Z) : formatDate (Some t) = Ok (isoDate (Day t)).
Proof.
  unfold formatDate, toISOString. cbn [bind]. f_equal.
  change (isoDate (Day t) ++ "T" ++ isoTime (TimeWithinDay t))
    with (isoDate (Day t) ++ String "T" (isoTime (TimeWithinDay t))).
  apply beforeT_app, noT_isoDate.
Qed.

Lemma formatDate_None : formatDate None = Throw RangeError.
Proof. reflexivity. Qed.

Lemma isoFields_app (s x : string) (y m d : Z) (rest : string) :
  isoFields s = Some (y, m, d, rest) ->
  isoFields (s ++ x) = Some (y, m, d, rest ++ x).
Proof.
  destruct s as [| c1 [| c2 [| c3 [| c4 [| c5 [| c6 [| c7 [| c8 [| c9 [| c10 r]]]]]]]]]];
    try discriminate.
  cbn [isoFields append].
  destruct (Ascii.eqb c5 "-" && Ascii.eqb c8 "-"); [| discriminate].
  destruct (digitVal c1), (digitVal c2), (digitVal c3), (digitVal c4),
    (digitVal c6), (digitVal c7), (digitVal c9), (digitVal c10); try discriminate.
  intros H. injection H as <- <- <- <-. reflexivity.
Qed.

(** The fields of a canonical date. *)
Lemma canonical_fields (s : string) :
  canonical s = true ->
  exists y m d, isoFields s = Some (y, m, d, "") /\ validYMD y m d = true.
Proof.
  unfold canonical. destruct (isoFields s) as [[[[y m] d] rest] |]; [| discriminate].
  intros H. apply andb_true_iff in H. destruct H as [V R].
  apply String.eqb_eq in R. subst rest. exists y, m, d. split; [reflexivity | exact V].
Qed.

(** A canonical date parses to the local midnight of its day. *)
Lemma parseDate_canonical (h : Host) (s : string) (y m d : Z) :
  isoFields s = Some (y, m, d, "") -> validYMD y m d = true ->
  parseDate h s = Some (UTC h (MakeDate (MakeDay y (m - 1) d) 0)).
Proof.
  intros F V. unfold parseDate, newDateString.
  rewrite (isoFields_app _ "T00:00:00" _ _ _ _ F), V. reflexivity.
Qed.

Lemma parseDate_canonical_Some (h : Host) (s : string) :
  canonical s = true -> exists t, parseDate h s = Some t.
Proof.
  intros C. destruct (canonical_fields s C) as (y & m & d & F & V).
  eexists. apply (parseDate_canonical h s y m d F V).
Qed.

Lemma canonical_nonempty (s : string) : canonical s = true -> s <> "".
Proof.
  intros C ->. discriminate C.
Qed.

Lemma getWeekStart_Some (h : Host) (t : Z) : exists t', getWeekStart h (Some t) = Some t'.
Proof.
  unfold getWeekStart, newDateMs, setDate, getDate, getDay, add, sub. simpl.
  eexists. reflexivity.
Qed.

Lemma getWeekEnd_Some (h : Host) (t : Z) : exists t', getWeekEnd h (Some t) = Some t'.
Proof.
  unfold getWeekEnd. destruct (getWeekStart_Some h t) as [t' ->].
  simpl. eexists. reflexivity.
Qed.

Lemma getMonthStart_Some (h : Host) (t : Z) : exists t', getMonthStart h (Some t) = Some t'.
Proof.
  unfold getMonthStart. simpl. eexists. reflexivity.
Qed.

Lemma getMonthEnd_Some (h : Host) (t : Z) : exists t', getMonthEnd h (Some t) = Some t'.
Proof.
  unfold getMonthEnd. simpl. eexists. reflexivity.
Qed.

(** The formatted week start of a canonical date exists. *)
Lemma weekStartOf_returns (h : Host) (s : string) :
  canonical s = true -> exists w, weekStartOf h s = Ok w.
Proof.
  intros C. unfold weekStartOf.
  destruct (parseDate_canonical_Some h s C) as [t ->].
  destruct (getWeekStart_Some h t) as [t' ->].
  rewrite formatDate_Some. eexists. reflexivity.
Qed.

Lemma canonicalDates_filter (p : Assignment.t -> bool) (l : list Assignment.t) :
  canonicalDates l -> canonicalDates (filter p l).
Proof.
  unfold canonicalDates. rewrite !Forall_forall. intros H a Hin.
  apply filter_In in Hin. apply H, Hin.
Qed.

Lemma addWeekStarts_returns (h : Host) (l : list Assignment.t) (weeks : JSSet.t) :
  canonicalDates l -> exists ws, addWeekStarts h l weeks = Ok ws.
Proof.
  intros C. revert weeks. induction C as [| a l Ca C IH]; intros weeks; simpl.
  - eexists. reflexivity.
  - destruct (weekStartOf_returns h _ Ca) as [w Hw]. unfold weekStartOf in Hw.
    rewrite Hw. cbn [bind]. apply IH.
Qed.

Lemma calculateQuotas_unfold (h : Host) (leaveTypes : list LeaveType.t)
    (l : list Assignment.t) (leaveTypeId : string) (targetDate : option string)
    (leaveType : LeaveType.t) :
  findLeaveType leaveTypes leaveTypeId = Some leaveType ->
  targetGiven targetDate -> canonicalDates l ->
  exists usedThisWeek weeksUsed,
    calculateQuotas h leaveTypes l leaveTypeId targetDate
    = Ok {| QuotaReport.used := Some
              {| Used.weekly := usedThisWeek;
                 Used.weeksThisMonth := JSSet.size weeksUsed;
                 Used.total := Z.of_nat (List.length (filter (ofLeaveType leaveTypeId) l)) |};
            QuotaReport.remaining := Some
              {| Remaining.weekly :=
                   minus (orInfinity (max_days_of (Quotas.weekly (quotasOf leaveType))))
                         usedThisWeek;
                 Remaining.weeksThisMonth :=
                   minus (orInfinity (max_weeks_of
                                        (Quotas.weeks_per_month (quotasOf leaveType))))
                         (JSSet.size weeksUsed);
                 Remaining.total :=
                   minus (orInfinity (max_days_of (Quotas.total (quotasOf leaveType))))
                         (Z.of_nat (List.length (filter (ofLeaveType leaveTypeId) l))) |} |}.
Proof.
  intros Hfind Ht Hl. unfold calculateQuotas. rewrite Hfind.
  assert (T : exists t,
             match targetDate with
             | None | Some EmptyString => newDateNow h
             | Some s => parseDate h s
             end = Some t).
  { destruct targetDate as [[| c s] |]; simpl in Ht.
    - eexists. reflexivity.
    - destruct Ht as [Ht | Ht]; [discriminate |]. apply parseDate_canonical_Some, Ht.
    - eexists. reflexivity. }
  destruct T as [t ->].
  destruct (getWeekStart_Some h t) as [t1 ->].
  destruct (getWeekEnd_Some h t) as [t2 ->].
  destruct (getMonthStart_Some h t) as [t3 ->].
  destruct (getMonthEnd_Some h t) as [t4 ->].
  rewrite !formatDate_Some. cbn [bind].
  match goal with |- context [addWeekStarts h ?m JSSet.empty] =>
    destruct (addWeekStarts_returns h m JSSet.empty) as [ws ->] end.
  { apply canonicalDates_filter, canonicalDates_filter, Hl. }
  cbn [bind]. eexists. exists ws. reflexivity.
Qed.

(** On canonical data the quota report is always returned. *)
Lemma calculateQuotas_returns (h : Host) (leaveTypes : list LeaveType.t)
    (l : list Assignment.t) (leaveTypeId : string) (targetDate : option string) :
  targetGiven targetDate -> canonicalDates l ->
  exists q, calculateQuotas h leaveTypes l leaveTypeId targetDate = Ok q.
Proof.
  intros Ht Hl.
  destruct (findLeaveType leaveTypes leaveTypeId) as [leaveType |] eqn:Hfind.
  - destruct (calculateQuotas_unfold h leaveTypes l leaveTypeId targetDate leaveType
                Hfind Ht Hl) as (u & ws & E).
    eexists. exact E.
  - unfold calculateQuotas. rewrite Hfind. eexists. reflexivity.
Qed.

Lemma monthlyWeeksExceeded_returns (h : Host) (l : list Assignment.t)
    (leaveType : LeaveType.t) (leaveTypeId date : string) :
  canonical date = true -> canonicalDates l ->
  exists b, monthlyWeeksExceeded h l leaveType leaveTypeId date = Ok b.
Proof.
  intros Cd Cl. unfold monthlyWeeksExceeded.
  destruct (Quotas.weeks_per_month _) as [wpm |]; [| eexists; reflexivity].
  destruct (parseDate_canonical_Some h date Cd) as [t ->].
  destruct (getWeekStart_Some h t) as [t1 ->].
  destruct (getMonthStart_Some h t) as [t3 ->].
  destruct (getMonthEnd_Some h t) as [t4 ->].
  rewrite !formatDate_Some. cbn [bind].
  match goal with |- context [addWeekStarts h ?m JSSet.empty] =>
    destruct (addWeekStarts_returns h m JSSet.empty) as [ws ->] end.
  { apply canonicalDates_filter, Cl. }
  cbn [bind]. eexists. reflexivity.
Qed.

Lemma firstFailure_pure_returns (b : bool) (why : string)
    (rest : list (result bool * string)) :
  (exists e, firstFailure rest = Ok e) ->
  exists e, firstFailure ((Ok b, why) :: rest) = Ok e.
Proof.
  intros [e He]. cbn [firstFailure bind]. destruct b; eexists; [reflexivity | exact He].
Qed.

(** On canonical data [isLeaveEligibleForDate] always returns a verdict. *)
Lemma isLeaveEligibleForDate_returns (h : Host) (leaveTypes : list LeaveType.t)
    (l : list Assignment.t) (leaveTypeId date : string) :
  canonical date = true -> canonicalDates l ->
  exists e, isLeaveEligibleForDate h leaveTypes l leaveTypeId date = Ok e.
Proof.
  intros Cd Cl.
  destruct (findLeaveType leaveTypes leaveTypeId) as [leaveType |] eqn:Hfind.
  - rewrite (isLeaveEligibleForDate_firstFailure _ _ _ _ _ _ Hfind).
    unfold evaluateEligibility.
    do 4 apply firstFailure_pure_returns.
    destruct (calculateQuotas_returns h leaveTypes l leaveTypeId (Some date))
      as [q Hq]; [right; exact Cd | exact Cl |].
    destruct (monthlyWeeksExceeded_returns h l leaveType leaveTypeId date Cd Cl)
      as [b Hb].
    unfold weeklyExceeded, totalExceeded. rewrite Hq, Hb. cbn [bind].
    apply firstFailure_pure_returns, firstFailure_pure_returns.
    cbn [firstFailure bind]. destruct b; eexists; reflexivity.
  - unfold isLeaveEligibleForDate. rewrite Hfind. eexists. reflexivity.
Qed.

(** ** Quotas that are not configured *)

(** A refusal of [firstFailure] carries the reason of a check that failed. *)
Lemma firstFailure_reason (checks : list (result bool * string)) (why : string) :
  firstFailure checks = Ok (ineligible why) ->
  exists check, In (check, why) checks /\ check = Ok true.
Proof.
  induction checks as [| [c w] rest IH]; cbn [firstFailure]; intros H.
  - discriminate H.
  - destruct c as [[|] | e]; cbn [bind] in H.
    + injection H as ->. exists (Ok true). split; [left; reflexivity | reflexivity].
    + destruct (IH H) as (check & Hin & Hc). exists check. split; [right; exact Hin | exact Hc].
    + discriminate H.
Qed.

Ltac pick_check H :=
  cbn [In] in H;
  repeat (destruct H as [H | H]; [try discriminate H |]);
  try contradiction.

Lemma weekly_reason_from_weekly_check (h : Host) (leaveTypes : list LeaveType.t)
    (l : list Assignment.t) (leaveType : LeaveType.t) (leaveTypeId date : string) :
  evaluateEligibility h leaveTypes l leaveType leaveTypeId date
  = Ok (ineligible "Weekly quota exceeded") ->
  weeklyExceeded h leaveTypes l leaveType leaveTypeId date = Ok true.
Proof.
  intros H. apply firstFailure_reason in H. destruct H as (check & Hin & Hc).
  pick_check Hin. injection Hin as <-. exact Hc.
Qed.

Lemma total_reason_from_total_check (h : Host) (leaveTypes : list LeaveType.t)
    (l : list Assignment.t) (leaveType : LeaveType.t) (leaveTypeId date : string) :
  evaluateEligibility h leaveTypes l leaveType leaveTypeId date
  = Ok (ineligible "Total quota exceeded") ->
  totalExceeded h leaveTypes l leaveType leaveTypeId date = Ok true.
Proof.
  intros H. apply firstFailure_reason in H. destruct H as (check & Hin & Hc).
  pick_check Hin. injection Hin as <-. exact Hc.
Qed.

Lemma monthly_reason_from_monthly_check (h : Host) (leaveTypes : list LeaveType.t)
    (l : list Assignment.t) (leaveType : LeaveType.t) (leaveTypeId date : string) :
  evaluateEligibility h leaveTypes l leaveType leaveTypeId date
  = Ok (ineligible "Monthly week limit exceeded") ->
  monthlyWeeksExceeded h l leaveType leaveTypeId date = Ok true.
Proof.
  intros H. apply firstFailure_reason in H. destruct H as (check & Hin & Hc).
  pick_check Hin. injection Hin as <-. exact Hc.
Qed.

(** The reason ["Leave type not found"] is given for an unknown leave type
    and for nothing else. *)
Lemma not_found_reason_is_dedicated (h : Host) (leaveTypes : list LeaveType.t)
    (l : list Assignment.t) (leaveTypeId date : string) (leaveType : LeaveType.t) :
  findLeaveType leaveTypes leaveTypeId = Some leaveType ->
  isLeaveEligibleForDate h leaveTypes l leaveTypeId date
  <> Ok (ineligible "Leave type not found").
Proof.
  intros Hfind E.
  rewrite (isLeaveEligibleForDate_firstFailure _ _ _ _ _ _ Hfind) in E.
  apply firstFailure_reason in E. destruct E as (check & Hin & _).
  pick_check Hin.
Qed.

(** For an unknown leave type the quota report is the pair of empty
    objects. *)
Lemma calculateQuotas_unknown_leave_type (h : Host) (leaveTypes : list LeaveType.t)
    (l : list Assignment.t) (leaveTypeId : string) (targetDate : option string) :
  findLeaveType leaveTypes leaveTypeId = None ->
  calculateQuotas h leaveTypes l leaveTypeId targetDate
  = Ok {| QuotaReport.used := None; QuotaReport.remaining := None |}.
Proof.
  intros N. unfold calculateQuotas. rewrite N. reflexivity.
Qed.

Lemma weeklyExceeded_unconfigured (h : Host) (leaveTypes : list LeaveType.t)
    (l : list Assignment.t) (leaveType : LeaveType.t) (leaveTypeId date : string) :
  Quotas.weekly (quotasOf leaveType) = None ->
  weeklyExceeded h leaveTypes l leaveType leaveTypeId date <> Ok true.
Proof.
  intros N. unfold weeklyExceeded. rewrite N.
  destruct (calculateQuotas _ _ _ _ _); cbn [bind]; discriminate.
Qed.

Lemma totalExceeded_unconfigured (h : Host) (leaveTypes : list LeaveType.t)
    (l : list Assignment.t) (leaveType : LeaveType.t) (leaveTypeId date : string) :
  Quotas.total (quotasOf leaveType) = None ->
  totalExceeded h leaveTypes l leaveType leaveTypeId date <> Ok true.
Proof.
  intros N. unfold totalExceeded. rewrite N.
  destruct (calculateQuotas _ _ _ _ _); cbn [bind]; discriminate.
Qed.

Lemma monthlyWeeksExceeded_unconfigured (h : Host) (l : list Assignment.t)
    (leaveType : LeaveType.t) (leaveTypeId date : string) :
  Quotas.weeks_per_month (quotasOf leaveType) = None ->
  monthlyWeeksExceeded h l leaveType leaveTypeId date <> Ok true.
Proof.
  intros N. unfold monthlyWeeksExceeded. rewrite N. discriminate.
Qed.

(** C7: for a leave type on which a quota dimension is not configured, the
    quota report (which is always returned on canonical data) gives that
    dimension's remaining count as [Infinity], and for every date and
    assignment list that dimension's check does not fail and
    [isLeaveEligibleForDate] does not return that dimension's refusal. *)
Theorem absent_quota_is_no_limit (h : Host) (leaveTypes : list LeaveType.t)
    (l : list Assignment.t) (leaveTypeId : string) (leaveType : LeaveType.t) :
  findLeaveType leaveTypes leaveTypeId = Some leaveType ->
  (forall targetDate,
      targetGiven targetDate -> canonicalDates l ->
      exists q r,
        calculateQuotas h leaveTypes l leaveTypeId targetDate = Ok q
        /\ QuotaReport.remaining q = Some r
        /\ (Quotas.weekly (quotasOf leaveType) = None ->
            Remaining.weekly r = Infinity)
        /\ (Quotas.weeks_per_month (quotasOf leaveType) = None ->
            Remaining.weeksThisMonth r = Infinity)
        /\ (Quotas.total (quotasOf leaveType) = None ->
            Remaining.total r = Infinity))
  /\ (forall date,
        (Quotas.weekly (quotasOf leaveType) = None ->
         weeklyExceeded h leaveTypes l leaveType leaveTypeId date <> Ok true
         /\ isLeaveEligibleForDate h leaveTypes l leaveTypeId date
            <> Ok (ineligible "Weekly quota exceeded"))
        /\ (Quotas.weeks_per_month (quotasOf leaveType) = None ->
            monthlyWeeksExceeded h l leaveType leaveTypeId date <> Ok true
            /\ isLeaveEligibleForDate h leaveTypes l leaveTypeId date
               <> Ok (ineligible "Monthly week limit exceeded"))
        /\ (Quotas.total (quotasOf leaveType) = None ->
            totalExceeded h leaveTypes l leaveType leaveTypeId date <> Ok true
            /\ isLeaveEligibleForDate h leaveTypes l leaveTypeId date
               <> Ok (ineligible "Total quota exceeded"))).
Proof.
  intros Hfind. split.
  - intros targetDate Ht Hl.
    destruct (calculateQuotas_unfold h leaveTypes l leaveTypeId targetDate leaveType
                Hfind Ht Hl) as (u & ws & E).
    eexists. eexists. split; [exact E |]. split; [reflexivity |].
    cbn [Remaining.weekly Remaining.weeksThisMonth Remaining.total].
    split; [| split]; intros ->; reflexivity.
  - intros date.
    rewrite (isLeaveEligibleForDate_firstFailure _ _ _ _ _ _ Hfind).
    split; [| split]; intros N.
    + pose proof (weeklyExceeded_unconfigured h leaveTypes l leaveType leaveTypeId date N) as X.
      split; [exact X |]. intros E. apply X. eapply weekly_reason_from_weekly_check, E.
    + pose proof (monthlyWeeksExceeded_unconfigured h l leaveType leaveTypeId date N) as X.
      split; [exact X |]. intros E. apply X. eapply monthly_reason_from_monthly_check, E.
    + pose proof (totalExceeded_unconfigured h leaveTypes l leaveType leaveTypeId date N) as X.
      split; [exact X |]. intros E. apply X. eapply total_reason_from_total_check, E.
Qed.

(** The seed leave type "leave-1" has no total quota: with two assignments
    its remaining total is still [Infinity]. *)
Lemma absent_quota_is_no_limit_witness :
  let l := [assignmentOf "assignment-1" "2025-07-07" "leave-1";
            assignmentOf "assignment-2" "2025-07-14" "leave-1"] in
  exists q r,
    calculateQuotas (strictHost 0 0) createSeedLeaveTypes l "leave-1" (Some "2025-07-21")
    = Ok q
    /\ QuotaReport.remaining q = Some r
    /\ Remaining.total r = Infinity.
Proof.
  intros l.
  destruct (proj1 (absent_quota_is_no_limit (strictHost 0 0) createSeedLeaveTypes l
                     "leave-1" _ eq_refl) (Some "2025-07-21"))
    as (q & r & E & R & _ & _ & T).
  - right. reflexivity.
  - repeat constructor.
  - exists q, r. split; [exact E |]. split; [exact R |]. apply T. reflexivity.
Defined.

(** ** The weeks-per-month check *)















(** ** The calendar of ECMAScript *)

Lemma DaysInYear_cases (y : Z) : DaysInYear y = 365 \/ DaysInYear y = 366.
Proof.
  unfold DaysInYear.
  destruct (negb (y mod 4 =? 0)); [left; reflexivity |].
  destruct (negb (y mod 100 =? 0)); [right; reflexivity |].
  destruct (negb (y mod 400 =? 0)); [left | right]; reflexivity.
Qed.

Lemma DayFromYear_succ (y : Z) : DayFromYear (y + 1) = DayFromYear y + DaysInYear y.
Proof.
  unfold DayFromYear, DaysInYear.
  destruct (Z.eqb_spec (y mod 4) 0) as [E4 | E4];
    destruct (Z.eqb_spec (y mod 100) 0) as [E100 | E100];
    destruct (Z.eqb_spec (y mod 400) 0) as [E400 | E400];
    cbn [negb]; Z.div_mod_to_equations; lia.
Qed.

Lemma DayFromYear_lt (y y' : Z) : y < y' -> DayFromYear y < DayFromYear y'.
Proof.
  intros H. unfold DayFromYear. Z.div_mod_to_equations. lia.
Qed.

Lemma DayFromYear_le (y y' : Z) : y <= y' -> DayFromYear y <= DayFromYear y'.
Proof.
  intros H. destruct (Z.eq_dec y y') as [-> | N]; [lia |].
  apply Z.lt_le_incl, DayFromYear_lt. lia.
Qed.

(** [YearFromDay d] is the year whose days include [d]. *)
Lemma YearFromDay_bounds (d : Z) :
  DayFromYear (YearFromDay d) <= d < DayFromYear (YearFromDay d + 1).
Proof.
  unfold YearFromDay.
  set (y0 := 1970 + 400 * d / 146097).
  assert (H0 : 146097 * (y0 - 1970) <= 400 * d < 146097 * (y0 - 1970) + 146097).
  { unfold y0. pose proof (Z.div_mod (400 * d) 146097 ltac:(lia)).
    pose proof (Z.mod_pos_bound (400 * d) 146097 ltac:(lia)). lia. }
  clearbody y0.
  destruct (Z.ltb_spec d (DayFromYear y0)) as [E1 | E1].
  - replace (y0 - 1 + 1) with y0 by lia. split; [| lia].
    unfold DayFromYear in *. Z.div_mod_to_equations. lia.
  - destruct (Z.leb_spec (DayFromYear (y0 + 1)) d) as [E2 | E2].
    + split; [lia |]. unfold DayFromYear in *. Z.div_mod_to_equations. lia.
    + lia.
Qed.

Lemma YearFromDay_unique (d y : Z) :
  DayFromYear y <= d < DayFromYear (y + 1) -> YearFromDay d = y.
Proof.
  intros H. pose proof (YearFromDay_bounds d) as B.
  destruct (Z.lt_trichotomy (YearFromDay d) y) as [L | [E | G]]; [| exact E |].
  - pose proof (DayFromYear_le (YearFromDay d + 1) y ltac:(lia)). lia.
  - pose proof (DayFromYear_le (y + 1) (YearFromDay d) ltac:(lia)). lia.
Qed.

Lemma YearFromDay_between (d a b : Z) :
  DayFromYear a <= d < DayFromYear b -> a <= YearFromDay d < b.
Proof.
  intros H. pose proof (YearFromDay_bounds d) as B. split.
  - destruct (Z.le_gt_cases a (YearFromDay d)) as [L | G]; [exact L |].
    pose proof (DayFromYear_le (YearFromDay d + 1) a ltac:(lia)). lia.
  - destruct (Z.lt_ge_cases (YearFromDay d) b) as [L | G]; [exact L |].
    pose proof (DayFromYear_le b (YearFromDay d) ltac:(lia)). lia.
Qed.

Lemma leapOf_cases (y : Z) :
  (leapOf y = 0 /\ DaysInYear y = 365) \/ (leapOf y = 1 /\ DaysInYear y = 366).
Proof.
  unfold leapOf. destruct (DaysInYear_cases y) as [-> | ->]; simpl; auto.
Qed.

Lemma DayWithinYear_bounds (d : Z) :
  0 <= DayWithinYear d < 365 + InLeapYear d.
Proof.
  unfold DayWithinYear, InLeapYear.
  pose proof (YearFromDay_bounds d) as B. rewrite DayFromYear_succ in B.
  destruct (leapOf_cases (YearFromDay d)) as [[-> E] | [-> E]]; lia.
Qed.

Lemma MonthFromDay_range (d : Z) : 0 <= MonthFromDay d <= 11.
Proof.
  unfold MonthFromDay.
  repeat match goal with |- context [if ?c then _ else _] => destruct c end; lia.
Qed.

(** The twelve months, by their first days within the year *)
Lemma month_cases (m : Z) :
  0 <= m <= 11 ->
  m = 0 \/ m = 1 \/ m = 2 \/ m = 3 \/ m = 4 \/ m = 5 \/ m = 6 \/ m = 7 \/ m = 8
  \/ m = 9 \/ m = 10 \/ m = 11.
Proof. lia. Qed.

Ltac each_month H :=
  apply month_cases in H;
  repeat (destruct H as [H | H]; [subst |]); [.. | subst].

Lemma monthFirstDay_values (l : Z) :
  monthFirstDay 0 l = 0
  /\ monthFirstDay 1 l = 31
  /\ monthFirstDay 2 l = 59 + l
  /\ monthFirstDay 3 l = 90 + l
  /\ monthFirstDay 4 l = 120 + l
  /\ monthFirstDay 5 l = 151 + l
  /\ monthFirstDay 6 l = 181 + l
  /\ monthFirstDay 7 l = 212 + l
  /\ monthFirstDay 8 l = 243 + l
  /\ monthFirstDay 9 l = 273 + l
  /\ monthFirstDay 10 l = 304 + l
  /\ monthFirstDay 11 l = 334 + l
  /\ monthFirstDay 12 l = 365 + l.
Proof.
  repeat split; reflexivity.
Qed.

(** Rewrites [monthFirstDay] at a given month by its value. *)
Ltac month_days :=
  change (0 + 1) with 1 in *; change (1 + 1) with 2 in *; change (2 + 1) with 3 in *;
  change (3 + 1) with 4 in *; change (4 + 1) with 5 in *; change (5 + 1) with 6 in *;
  change (6 + 1) with 7 in *; change (7 + 1) with 8 in *; change (8 + 1) with 9 in *;
  change (9 + 1) with 10 in *; change (10 + 1) with 11 in *;
  change (11 + 1) with 12 in *;
  repeat match goal with
         | |- context [monthFirstDay _ ?l] =>
             let V := fresh "V" in
             pose proof (monthFirstDay_values l) as V;
             rewrite ?(proj1 V), ?(proj1 (proj2 V)) in *;
             decompose [and] V; clear V;
             repeat match goal with
                    | E : monthFirstDay _ l = _ |- _ => rewrite ?E in *; clear E
                    end
         | H : context [monthFirstDay _ ?l] |- _ =>
             let V := fresh "V" in
             pose proof (monthFirstDay_values l) as V;
             decompose [and] V; clear V;
             repeat match goal with
                    | E : monthFirstDay _ l = _ |- _ => rewrite ?E in *; clear E
                    end
         end.

Lemma monthFirstDay_length (m leap : Z) :
  0 <= m <= 11 -> 0 <= leap <= 1 ->
  28 <= monthFirstDay (m + 1) leap - monthFirstDay m leap <= 31
  /\ 0 <= monthFirstDay m leap
  /\ monthFirstDay (m + 1) leap <= 365 + leap.
Proof.
  intros M L. assert (L' : leap = 0 \/ leap = 1) by lia.
  each_month M; month_days; lia.
Qed.

(** The day within the year falls in the month [MonthFromDay] names. *)
Lemma MonthFromDay_bounds (d : Z) :
  monthFirstDay (MonthFromDay d) (InLeapYear d) <= DayWithinYear d
  < monthFirstDay (MonthFromDay d + 1) (InLeapYear d).
Proof.
  pose proof (DayWithinYear_bounds d) as B.
  assert (L : InLeapYear d = 0 \/ InLeapYear d = 1).
  { unfold InLeapYear. destruct (leapOf_cases (YearFromDay d)) as [[-> _] | [-> _]]; auto. }
  unfold MonthFromDay.
  repeat match goal with
         | |- context [if ?a <? ?b then _ else _] => destruct (Z.ltb_spec a b)
         end; month_days; lia.
Qed.

Lemma MonthFromDay_unique (d m : Z) :
  0 <= m <= 11 ->
  monthFirstDay m (InLeapYear d) <= DayWithinYear d
  < monthFirstDay (m + 1) (InLeapYear d) ->
  MonthFromDay d = m.
Proof.
  intros M H.
  assert (L : InLeapYear d = 0 \/ InLeapYear d = 1).
  { unfold InLeapYear. destruct (leapOf_cases (YearFromDay d)) as [[-> _] | [-> _]]; auto. }
  unfold MonthFromDay.
  each_month M; month_days;
    repeat match goal with
           | |- context [if ?a <? ?b then _ else _] => destruct (Z.ltb_spec a b)
           end; lia.
Qed.

Lemma DateFromDay_range (d : Z) : 1 <= DateFromDay d <= 31.
Proof.
  unfold DateFromDay. pose proof (MonthFromDay_bounds d) as B.
  pose proof (MonthFromDay_range d) as M.
  assert (L : 0 <= InLeapYear d <= 1).
  { unfold InLeapYear. destruct (leapOf_cases (YearFromDay d)) as [[-> _] | [-> _]]; lia. }
  pose proof (monthFirstDay_length _ _ M L). lia.
Qed.

(** [MakeDay] on a month of the year *)
Lemma MakeDay_in_year (y m d : Z) :
  0 <= m <= 11 ->
  MakeDay y m d = DayFromYear y + monthFirstDay m (leapOf y) + d - 1.
Proof.
  intros M. unfold MakeDay.
  replace (m / 12) with 0 by (Z.div_mod_to_equations; lia).
  replace (m mod 12) with m by (Z.div_mod_to_equations; lia).
  rewrite Z.add_0_r. reflexivity.
Qed.

Lemma MakeDay_date (y m d k : Z) : MakeDay y m (d + k) = MakeDay y m d + k.
Proof.
  unfold MakeDay. lia.
Qed.

(** Rebuilding a day from its year, month and date *)
Lemma MakeDay_of_fields (d k : Z) :
  MakeDay (YearFromDay d) (MonthFromDay d) k = d - DateFromDay d + k.
Proof.
  rewrite MakeDay_in_year by apply MonthFromDay_range.
  unfold DateFromDay, DayWithinYear, InLeapYear. lia.
Qed.

Lemma DaysInMonth_in_year (y m : Z) :
  0 <= m <= 11 ->
  DaysInMonth y m = monthFirstDay (m + 1) (leapOf y) - monthFirstDay m (leapOf y).
Proof.
  intros M. unfold DaysInMonth.
  rewrite (MakeDay_in_year y m) by exact M.
  destruct (Z.eq_dec m 11) as [-> | N].
  - unfold MakeDay. change ((11 + 1) / 12) with 1. change ((11 + 1) mod 12) with 0.
    rewrite DayFromYear_succ.
    destruct (leapOf_cases y) as [[-> E] | [-> E]]; rewrite E; month_days; lia.
  - rewrite MakeDay_in_year by lia. lia.
Qed.

Lemma DaysInMonth_range (y m : Z) : 0 <= m <= 11 -> 28 <= DaysInMonth y m <= 31.
Proof.
  intros M. rewrite DaysInMonth_in_year by exact M.
  apply monthFirstDay_length; [exact M |].
  destruct (leapOf_cases y) as [[-> _] | [-> _]]; lia.
Qed.

(** The fields of a day built from a year, a month of it and a date of
    that month *)
Lemma fields_of_MakeDay (y m d : Z) :
  0 <= m <= 11 -> 1 <= d <= DaysInMonth y m ->
  YearFromDay (MakeDay y m d) = y
  /\ MonthFromDay (MakeDay y m d) = m
  /\ DateFromDay (MakeDay y m d) = d.
Proof.
  intros M D. rewrite DaysInMonth_in_year in D by exact M.
  rewrite MakeDay_in_year by exact M.
  set (day := DayFromYear y + monthFirstDay m (leapOf y) + d - 1).
  assert (L : 0 <= leapOf y <= 1).
  { destruct (leapOf_cases y) as [[-> _] | [-> _]]; lia. }
  pose proof (monthFirstDay_length m (leapOf y) M L) as (_ & P0 & P1).
  assert (Y : YearFromDay day = y).
  { apply YearFromDay_unique. rewrite DayFromYear_succ. unfold day.
    destruct (leapOf_cases y) as [[E ->] | [E ->]]; rewrite E in *; lia. }
  assert (IL : InLeapYear day = leapOf y).
  { unfold InLeapYear. rewrite Y. reflexivity. }
  assert (W : DayWithinYear day = monthFirstDay m (leapOf y) + d - 1).
  { unfold DayWithinYear. rewrite Y. unfold day. lia. }
  assert (Mo : MonthFromDay day = m).
  { apply MonthFromDay_unique; [exact M |]. rewrite IL, W. lia. }
  split; [exact Y |]. split; [exact Mo |].
  unfold DateFromDay. rewrite Mo, IL, W. lia.
Qed.

(** [MakeDay] carries months over into the years before and after. *)
Lemma MakeDay_normalise (y m d : Z) : MakeDay y m d = MakeDay (y + m / 12) (m mod 12) d.
Proof.
  unfold MakeDay.
  pose proof (Z.mod_pos_bound m 12 ltac:(lia)) as B.
  replace (m mod 12 / 12) with 0 by (Z.div_mod_to_equations; lia).
  rewrite Z.mod_mod by lia. rewrite Z.add_0_r. reflexivity.
Qed.

Lemma DaysInMonth_normalise (y m : Z) :
  DaysInMonth y m = DaysInMonth (y + m / 12) (m mod 12).
Proof.
  unfold DaysInMonth. rewrite (MakeDay_normalise y m), (MakeDay_normalise y (m + 1)).
  pose proof (Z.mod_pos_bound m 12 ltac:(lia)) as B.
  destruct (Z.eq_dec (m mod 12) 11) as [E | N].
  - rewrite E.
    replace ((m + 1) / 12) with (m / 12 + 1) by (Z.div_mod_to_equations; lia).
    replace ((m + 1) mod 12) with 0 by (Z.div_mod_to_equations; lia).
    unfold MakeDay. change ((11 + 1) / 12) with 1. change ((11 + 1) mod 12) with 0.
    change (0 / 12) with 0. change (0 mod 12) with 0.
    replace (y + (m / 12 + 1) + 0) with (y + m / 12 + 1) by lia. reflexivity.
  - replace ((m + 1) / 12) with (m / 12) by (Z.div_mod_to_equations; lia).
    replace ((m + 1) mod 12) with (m mod 12 + 1) by (Z.div_mod_to_equations; lia).
    rewrite (MakeDay_normalise (y + m / 12) (m mod 12 + 1)).
    replace ((m mod 12 + 1) / 12) with 0 by (Z.div_mod_to_equations; lia).
    replace ((m mod 12 + 1) mod 12) with (m mod 12 + 1) by (Z.div_mod_to_equations; lia).
    rewrite Z.add_0_r. reflexivity.
Qed.

(** The month number of a day built on any month count *)
Lemma MonthFromDay_MakeDay (y m d : Z) :
  1 <= d <= DaysInMonth y m ->
  MonthFromDay (MakeDay y m d) = m mod 12
  /\ YearFromDay (MakeDay y m d) = y + m / 12.
Proof.
  intros D. rewrite MakeDay_normalise. rewrite DaysInMonth_normalise in D.
  pose proof (Z.mod_pos_bound m 12 ltac:(lia)) as B.
  destruct (fields_of_MakeDay (y + m / 12) (m mod 12) d ltac:(lia) D) as (Y & Mo & _).
  split; [exact Mo | exact Y].
Qed.

(** ** Dates at local midnight *)

Lemma Day_midnight (h : Host) (day : Z) : Day (LocalTime h (midnight h day)) = day.
Proof.
  unfold midnight, LocalTime, UTC, MakeDate, Day, msPerDay.
  replace (day * 86400000 + 0 - LocalTZA h + LocalTZA h) with (day * 86400000) by lia.
  apply Z.div_mul. lia.
Qed.

Lemma TimeWithinDay_midnight (h : Host) (day : Z) :
  TimeWithinDay (LocalTime h (midnight h day)) = 0.
Proof.
  unfold midnight, LocalTime, UTC, MakeDate, TimeWithinDay, msPerDay.
  replace (day * 86400000 + 0 - LocalTZA h + LocalTZA h) with (day * 86400000) by lia.
  apply Z.mod_mul. lia.
Qed.

Lemma getDay_midnight (h : Host) (day : Z) :
  getDay h (Some (midnight h day)) = Some (WeekDay day).
Proof.
  unfold getDay. cbn [option_map]. rewrite Day_midnight. reflexivity.
Qed.

Lemma getDate_midnight (h : Host) (day : Z) :
  getDate h (Some (midnight h day)) = Some (DateFromDay day).
Proof.
  unfold getDate. cbn [option_map]. rewrite Day_midnight. reflexivity.
Qed.

Lemma getMonth_midnight (h : Host) (day : Z) :
  getMonth h (Some (midnight h day)) = Some (MonthFromDay day).
Proof.
  unfold getMonth. cbn [option_map]. rewrite Day_midnight. reflexivity.
Qed.

Lemma getFullYear_midnight (h : Host) (day : Z) :
  getFullYear h (Some (midnight h day)) = Some (YearFromDay day).
Proof.
  unfold getFullYear. cbn [option_map]. rewrite Day_midnight. reflexivity.
Qed.

(** [setDate] moves a local midnight within (or out of) its month. *)
Lemma setDate_midnight (h : Host) (day k : Z) :
  setDate h (Some (midnight h day)) (Some k)
  = Some (midnight h (day - DateFromDay day + k)).
Proof.
  unfold setDate. rewrite Day_midnight, TimeWithinDay_midnight, MakeDay_of_fields.
  reflexivity.
Qed.

Lemma newDateYMD_midnight (h : Host) (y m d : Z) :
  newDateYMD h (Some y) (Some m) (Some d)
  = Some (midnight h (MakeDay (if (0 <=? y) && (y <=? 99) then 1900 + y else y) m d)).
Proof. reflexivity. Qed.

(** The week of a local day starts on the Monday on or before it. *)
Lemma getWeekStart_midnight (h : Host) (day : Z) :
  getWeekStart h (Some (midnight h day))
  = Some (midnight h (day - (WeekDay day + 6) mod 7)).
Proof.
  unfold getWeekStart, newDateMs.
  rewrite getDay_midnight, getDate_midnight. cbn [add sub strictEq].
  rewrite setDate_midnight. do 2 f_equal.
  assert (W : 0 <= WeekDay day < 7) by (unfold WeekDay; apply Z.mod_pos_bound; lia).
  destruct (Z.eqb_spec (WeekDay day) 0) as [E | N].
  - rewrite E. change ((0 + 6) mod 7) with 6. lia.
  - replace ((WeekDay day + 6) mod 7) with (WeekDay day - 1)
      by (Z.div_mod_to_equations; lia).
    lia.
Qed.

Lemma WeekDay_week_start (day : Z) : WeekDay (day - (WeekDay day + 6) mod 7) = 1.
Proof.
  unfold WeekDay. Z.div_mod_to_equations. lia.
Qed.

Lemma getWeekEnd_midnight (h : Host) (day : Z) :
  getWeekEnd h (Some (midnight h day))
  = Some (midnight h (day - (WeekDay day + 6) mod 7 + 6)).
Proof.
  unfold getWeekEnd. rewrite getWeekStart_midnight.
  unfold newDateMs, getTime, add, midnight, UTC, MakeDate, msPerDay. f_equal. lia.
Qed.

(** [formatDate] of a local midnight names the local day on a host at or
    behind UTC, and the day before on a host ahead of UTC. *)
Lemma formatDate_midnight (h : Host) (day : Z) :
  formatDate (Some (midnight h day)) = Ok (isoDate (day + utcShift h)).
Proof.
  rewrite formatDate_Some. do 2 f_equal.
  unfold midnight, utcShift, UTC, MakeDate, Day.
  replace (day * msPerDay + 0 - LocalTZA h) with (day * msPerDay + - LocalTZA h) by lia.
  apply Z.div_add_l. unfold msPerDay. lia.
Qed.

Lemma utcShift_behind (h : Host) :
  - msPerDay < LocalTZA h <= 0 -> utcShift h = 0.
Proof.
  unfold utcShift, Day, msPerDay. intros H. Z.div_mod_to_equations. lia.
Qed.

Lemma utcShift_ahead (h : Host) :
  0 < LocalTZA h <= msPerDay -> utcShift h = -1.
Proof.
  unfold utcShift, Day, msPerDay. intros H. Z.div_mod_to_equations. lia.
Qed.

(** ** The ISO form of a day *)

Lemma digit_cases (k : Z) :
  0 <= k <= 9 ->
  k = 0 \/ k = 1 \/ k = 2 \/ k = 3 \/ k = 4 \/ k = 5 \/ k = 6 \/ k = 7 \/ k = 8 \/ k = 9.
Proof. lia. Qed.

Lemma digitVal_digitChar (k : Z) : 0 <= k <= 9 -> digitVal (digitChar k) = Some k.
Proof.
  intros H. apply digit_cases in H.
  repeat (destruct H as [H | H]; [subst; reflexivity |]). subst. reflexivity.
Qed.

Lemma digitChar_digitVal (c : ascii) (k : Z) :
  digitVal c = Some k -> digitChar k = c /\ 0 <= k <= 9.
Proof.
  destruct c as [[] [] [] [] [] [] [] []]; vm_compute; intros H;
    try discriminate H; injection H as <-;
    (split; [reflexivity | split; discriminate]).
Qed.

(** The ISO form of a day of the years 0 to 9999 reads back as its year,
    month and date. *)
Lemma isoFields_isoDate (day : Z) :
  0 <= YearFromDay day <= 9999 ->
  isoFields (isoDate day)
  = Some (YearFromDay day, MonthFromDay day + 1, DateFromDay day, "").
Proof.
  intros Y. unfold isoDate, isoYear.
  destruct (Z.leb_spec 0 (YearFromDay day)); [| lia].
  destruct (Z.leb_spec (YearFromDay day) 9999); [| lia].
  cbn [andb]. unfold pad4, pad2. cbn [append isoFields].
  change (Ascii.eqb "-" "-") with true. cbn [andb].
  pose proof (MonthFromDay_range day) as M.
  pose proof (DateFromDay_range day) as D.
  set (y := YearFromDay day) in *. set (m := MonthFromDay day + 1) in *.
  set (d := DateFromDay day) in *.
  rewrite !digitVal_digitChar by (apply Z.mod_pos_bound || (pose proof (Z.mod_pos_bound (y / 1000) 10); pose proof (Z.mod_pos_bound (y / 100) 10); pose proof (Z.mod_pos_bound (y / 10) 10); pose proof (Z.mod_pos_bound y 10); pose proof (Z.mod_pos_bound (m / 10) 10); pose proof (Z.mod_pos_bound m 10); pose proof (Z.mod_pos_bound (d / 10) 10); pose proof (Z.mod_pos_bound d 10); lia)).
  assert (Ey : 1000 * (y / 1000 mod 10) + 100 * (y / 100 mod 10)
               + 10 * (y / 10 mod 10) + y mod 10 = y)
    by (Z.div_mod_to_equations; lia).
  assert (Em : 10 * (m / 10 mod 10) + m mod 10 = m)
    by (Z.div_mod_to_equations; lia).
  assert (Ed : 10 * (d / 10 mod 10) + d mod 10 = d)
    by (Z.div_mod_to_equations; lia).
  rewrite Ey, Em, Ed. reflexivity.
Qed.

Lemma validYMD_of_day (day : Z) :
  validYMD (YearFromDay day) (MonthFromDay day + 1) (DateFromDay day) = true.
Proof.
  unfold validYMD.
  pose proof (MonthFromDay_range day) as M.
  pose proof (DateFromDay_range day) as D.
  replace (MonthFromDay day + 1 - 1) with (MonthFromDay day) by lia.
  rewrite DaysInMonth_in_year by exact M.
  pose proof (MonthFromDay_bounds day) as B.
  unfold DateFromDay in *. unfold InLeapYear in *.
  rewrite !andb_true_iff, !Z.leb_le. lia.
Qed.

(** The ISO form of a day of the years 0 to 9999 is a canonical date. *)
Lemma canonical_isoDate (day : Z) :
  0 <= YearFromDay day <= 9999 -> canonical (isoDate day) = true.
Proof.
  intros Y. unfold canonical. rewrite (isoFields_isoDate day Y), validYMD_of_day.
  reflexivity.
Qed.

Lemma dayNumber_isoDate (day : Z) :
  0 <= YearFromDay day <= 9999 -> dayNumber (isoDate day) = Some day.
Proof.
  intros Y. unfold dayNumber. rewrite (isoFields_isoDate day Y). f_equal.
  replace (MonthFromDay day + 1 - 1) with (MonthFromDay day) by lia.
  rewrite MakeDay_of_fields. lia.
Qed.

(** ** Parsing and formatting back *)

Lemma Some_eq {A : Type} (x y : A) : Some x = Some y -> x = y.
Proof. congruence. Qed.

(** A string with the fields of a date is the ISO form of those fields. *)
Lemma isoFields_inv (s : string) (y m d : Z) :
  isoFields s = Some (y, m, d, "") ->
  s = pad4 y ++ "-" ++ pad2 m ++ "-" ++ pad2 d
  /\ 0 <= y <= 9999 /\ 0 <= m <= 99 /\ 0 <= d <= 99.
Proof.
  destruct s as [| c1 [| c2 [| c3 [| c4 [| c5 [| c6 [| c7 [| c8 [| c9 [| c10 r]]]]]]]]]];
    try discriminate.
  cbn [isoFields].
  destruct (Ascii.eqb c5 "-") eqn:H5; [| discriminate].
  destruct (Ascii.eqb c8 "-") eqn:H8; [| discriminate].
  apply Ascii.eqb_eq in H5. apply Ascii.eqb_eq in H8. subst c5 c8. cbn [andb].
  destruct (digitVal c1) as [k1 |] eqn:E1; [| discriminate].
  destruct (digitVal c2) as [k2 |] eqn:E2; [| discriminate].
  destruct (digitVal c3) as [k3 |] eqn:E3; [| discriminate].
  destruct (digitVal c4) as [k4 |] eqn:E4; [| discriminate].
  destruct (digitVal c6) as [k6 |] eqn:E6; [| discriminate].
  destruct (digitVal c7) as [k7 |] eqn:E7; [| discriminate].
  destruct (digitVal c9) as [k9 |] eqn:E9; [| discriminate].
  destruct (digitVal c10) as [k10 |] eqn:E10; [| discriminate].
  intros H. apply Some_eq in H. rewrite !pair_equal_spec in H.
  destruct H as [[[<- <-] <-] ->].
  apply digitChar_digitVal in E1, E2, E3, E4, E6, E7, E9, E10.
  destruct E1 as [<- B1], E2 as [<- B2], E3 as [<- B3], E4 as [<- B4],
    E6 as [<- B6], E7 as [<- B7], E9 as [<- B9], E10 as [<- B10].
  split; [| lia].
  unfold pad4, pad2. cbn [append].
  replace ((1000 * k1 + 100 * k2 + 10 * k3 + k4) / 1000 mod 10) with k1
    by (Z.div_mod_to_equations; lia).
  replace ((1000 * k1 + 100 * k2 + 10 * k3 + k4) / 100 mod 10) with k2
    by (Z.div_mod_to_equations; lia).
  replace ((1000 * k1 + 100 * k2 + 10 * k3 + k4) / 10 mod 10) with k3
    by (Z.div_mod_to_equations; lia).
  replace ((1000 * k1 + 100 * k2 + 10 * k3 + k4) mod 10) with k4
    by (Z.div_mod_to_equations; lia).
  replace ((10 * k6 + k7) / 10 mod 10) with k6 by (Z.div_mod_to_equations; lia).
  replace ((10 * k6 + k7) mod 10) with k7 by (Z.div_mod_to_equations; lia).
  replace ((10 * k9 + k10) / 10 mod 10) with k9 by (Z.div_mod_to_equations; lia).
  replace ((10 * k9 + k10) mod 10) with k10 by (Z.div_mod_to_equations; lia).
  reflexivity.
Qed.

Lemma validYMD_inv (y m d : Z) :
  validYMD y m d = true -> 0 <= m - 1 <= 11 /\ 1 <= d <= DaysInMonth y (m - 1).
Proof.
  unfold validYMD. rewrite !andb_true_iff, !Z.leb_le. lia.
Qed.

(** A canonical date is the ISO form of the day it names. *)
Lemma canonical_is_isoDate (s : string) :
  canonical s = true ->
  exists day, dayNumber s = Some day /\ isoDate day = s
              /\ 0 <= YearFromDay day <= 9999.
Proof.
  intros C. destruct (canonical_fields s C) as (y & m & d & F & V).
  unfold dayNumber. rewrite F. eexists. split; [reflexivity |].
  destruct (isoFields_inv s y m d F) as (S & Y & _ & _).
  destruct (validYMD_inv y m d V) as [M D].
  destruct (fields_of_MakeDay y (m - 1) d M D) as (Ey & Em & Ed).
  unfold isoDate, isoYear. rewrite Ey, Em, Ed.
  destruct (Z.leb_spec 0 y); [| lia]. destruct (Z.leb_spec y 9999); [| lia].
  cbn [andb]. replace (m - 1 + 1) with m by lia.
  split; [symmetry; exact S | exact Y].
Qed.

(** A canonical date parses to the local midnight of the day it names. *)
Lemma parseDate_midnight (h : Host) (s : string) :
  canonical s = true ->
  exists day, dayNumber s = Some day /\ parseDate h s = Some (midnight h day).
Proof.
  intros C. destruct (canonical_fields s C) as (y & m & d & F & V).
  unfold dayNumber. rewrite F. eexists. split; [reflexivity |].
  apply (parseDate_canonical h s y m d F V).
Qed.

(** Parsing a canonical date and formatting it back names the same day
    shifted by the host's offset from UTC, counted in days. *)
Lemma formatDate_parseDate (h : Host) (s : string) :
  canonical s = true ->
  exists day, dayNumber s = Some day
              /\ formatDate (parseDate h s) = Ok (isoDate (day + utcShift h)).
Proof.
  intros C. destruct (parseDate_midnight h s C) as (day & N & P).
  exists day. split; [exact N |]. rewrite P. apply formatDate_midnight.
Qed.

(** On a host at UTC or less than a day behind it, a canonical date
    survives [parseDate] followed by [formatDate]. *)
Lemma formatDate_parseDate_behind_UTC (h : Host) (s : string) :
  - msPerDay < LocalTZA h <= 0 ->
  canonical s = true ->
  formatDate (parseDate h s) = Ok s.
Proof.
  intros Z C. destruct (formatDate_parseDate h s C) as (day & N & ->).
  destruct (canonical_is_isoDate s C) as (day' & N' & I & _).
  rewrite N in N'. injection N' as <-.
  rewrite (utcShift_behind h Z), Z.add_0_r, I. reflexivity.
Qed.

Lemma isoFields_negative_year (day : Z) :
  YearFromDay day < 0 -> isoFields (isoDate day) = None.
Proof.
  intros Y. unfold isoDate, isoYear.
  destruct (Z.leb_spec 0 (YearFromDay day)); [lia |]. cbn [andb].
  destruct (Z.ltb_spec (YearFromDay day) 0); [| lia].
  unfold pad6, pad4, pad2. cbn [append isoFields].
  destruct (_ && _); reflexivity.
Qed.

(** On a host ahead of UTC by up to a day, [parseDate] followed by
    [formatDate] turns every canonical date into the day before it. *)
Lemma formatDate_parseDate_ahead_of_UTC (h : Host) (s : string) :
  0 < LocalTZA h <= msPerDay ->
  canonical s = true ->
  exists day,
    dayNumber s = Some day
    /\ formatDate (parseDate h s) = Ok (isoDate (day - 1))
    /\ isoDate (day - 1) <> s.
Proof.
  intros Z C. destruct (formatDate_parseDate h s C) as (day & N & E).
  exists day. split; [exact N |].
  rewrite (utcShift_ahead h Z) in E. split; [exact E |].
  intros X.
  destruct (canonical_is_isoDate s C) as (day' & N' & I & Y).
  rewrite N in N'. injection N' as <-.
  destruct (Z.lt_ge_cases (YearFromDay (day - 1)) 0) as [Neg | Pos].
  - pose proof (isoFields_negative_year (day - 1) Neg) as F.
    rewrite X in F. unfold dayNumber in N. rewrite F in N. discriminate N.
  - assert (R : 0 <= YearFromDay (day - 1) <= 9999).
    { split; [lia |].
      pose proof (YearFromDay_bounds day) as B.
      pose proof (DayFromYear_le (YearFromDay day + 1) 10000 ltac:(lia)) as L.
      pose proof (YearFromDay_bounds (day - 1)) as B'.
      destruct (Z.le_gt_cases (YearFromDay (day - 1)) 9999) as [Le | Gt]; [exact Le |].
      pose proof (DayFromYear_le 10000 (YearFromDay (day - 1)) ltac:(lia)). lia. }
    pose proof (dayNumber_isoDate (day - 1) R) as D.
    rewrite X, N in D. injection D as D. lia.
Qed.

Lemma formatDate_parseDate_behind_UTC_witness :
  formatDate (parseDate (strictHost (-18000000) 0) "2025-07-07") = Ok "2025-07-07".
Proof.
  apply formatDate_parseDate_behind_UTC.
  - vm_compute. split; [reflexivity | discriminate].
  - reflexivity.
Defined.

Lemma formatDate_parseDate_ahead_of_UTC_witness :
  exists day,
    dayNumber "2025-07-07" = Some day
    /\ formatDate (parseDate (strictHost 7200000 0) "2025-07-07")
       = Ok (isoDate (day - 1))
    /\ isoDate (day - 1) <> "2025-07-07".
Proof.
  apply formatDate_parseDate_ahead_of_UTC.
  - vm_compute. split; [reflexivity | discriminate].
  - reflexivity.
Defined.

(** C10: on a host two hours ahead of UTC, [formatDate (parseDate s)] for
    the canonical date 2025-07-07 is 2025-07-06, not the date parsed. *)
Theorem parse_then_format_shifts_east_of_UTC :
  formatDate (parseDate (strictHost 7200000 0) "2025-07-07") = Ok "2025-07-06".
Proof.
  vm_compute. reflexivity.
Qed.

(** ** The calendar grid *)

Lemma filterR_returns {A : Type} (p : A -> result bool) (l : list A) :
  (forall x, In x l -> exists b, p x = Ok b) ->
  exists r, filterR p l = Ok r.
Proof.
  induction l as [| x l IH]; intros H; cbn [filterR].
  - eexists. reflexivity.
  - destruct (H x (or_introl eq_refl)) as [b ->].
    destruct IH as [r ->]; [intros y Hy; apply H; right; exact Hy |].
    cbn [bind]. eexists. reflexivity.
Qed.

Lemma map_seq_shift {A : Type} (f : nat -> A) (a n : nat) :
  map f (seq (S a) n) = map (fun k => f (S k)) (seq a n).
Proof.
  rewrite <- seq_shift, map_map. reflexivity.
Qed.

(** The loop of [calendarDays], started at the local midnight of day
    [day], appends one entry per turn for the days from [day] on. *)
Lemma calendarLoop_cells (h : Host) (leaveTypes : list LeaveType.t)
    (l : list Assignment.t) (month : number) (turns : nat) :
  canonicalDates l ->
  forall (day : Z) (acc : list DayInfo.t),
    (forall k, (k < turns)%nat ->
               0 <= YearFromDay (day + Z.of_nat k + utcShift h) <= 9999) ->
    exists cells,
      calendarLoop h leaveTypes l month turns (Some (midnight h day)) acc
      = Ok (acc ++ cells)%list
      /\ map DayInfo.date cells
         = map (fun k => isoDate (day + Z.of_nat k + utcShift h)) (seq 0 turns)
      /\ map DayInfo.isCurrentMonth cells
         = map (fun k => strictEq (Some (MonthFromDay (day + Z.of_nat k))) month)
               (seq 0 turns).
Proof.
  intros Cl. induction turns as [| n IH]; intros day acc Y.
  - exists []. cbn [calendarLoop map seq]. rewrite app_nil_r. auto.
  - cbn [calendarLoop]. rewrite formatDate_midnight. cbn [bind].
    assert (C0 : canonical (isoDate (day + utcShift h)) = true).
    { apply canonical_isoDate. specialize (Y 0%nat ltac:(lia)).
      replace (day + Z.of_nat 0 + utcShift h) with (day + utcShift h) in Y by lia.
      exact Y. }
    match goal with |- context [filterR ?p leaveTypes] =>
      destruct (filterR_returns p leaveTypes) as [eligible ->] end.
    { intros lt _.
      destruct (isLeaveEligibleForDate_returns h leaveTypes l (LeaveType.id lt)
                  _ C0 Cl) as [e ->].
      cbn [bind]. eexists. reflexivity. }
    cbn [bind].
    rewrite getDate_midnight, getMonth_midnight. cbn [add].
    rewrite setDate_midnight.
    replace (day - DateFromDay day + (DateFromDay day + 1)) with (day + 1) by lia.
    match goal with |- context [(acc ++ [?c])%list] => set (cell := c) end.
    destruct (IH (day + 1) (acc ++ [cell])%list) as (cells & E & Dt & Fl).
    { intros k Hk. specialize (Y (S k) ltac:(lia)).
      replace (day + 1 + Z.of_nat k) with (day + Z.of_nat (S k)) by lia. exact Y. }
    exists (cell :: cells). rewrite E, <- app_assoc. split; [reflexivity |].
    cbn [map seq]. rewrite !map_seq_shift. split.
    + f_equal.
      * unfold cell. cbn [DayInfo.date].
        replace (day + Z.of_nat 0 + utcShift h) with (day + utcShift h) by lia.
        reflexivity.
      * rewrite Dt. apply map_ext. intros k.
        replace (day + 1 + Z.of_nat k) with (day + Z.of_nat (S k)) by lia.
        reflexivity.
    + f_equal.
      * unfold cell. cbn [DayInfo.isCurrentMonth].
        replace (day + Z.of_nat 0) with day by lia. reflexivity.
      * rewrite Fl. apply map_ext. intros k.
        replace (day + 1 + Z.of_nat k) with (day + Z.of_nat (S k)) by lia.
        reflexivity.
Qed.

Lemma map_seq_const {A : Type} (f : nat -> A) (c : A) (n a : nat) :
  (forall k, (a <= k < a + n)%nat -> f k = c) -> map f (seq a n) = repeat c n.
Proof.
  revert a. induction n as [| n IH]; intros a H; cbn [seq map repeat]; [reflexivity |].
  rewrite (H a) by lia. f_equal. apply IH. intros k Hk. apply H. lia.
Qed.

(** A flag that holds exactly on the interval from [a] to [b] gives a run
    of [false], a run of [true] and a run of [false]. *)
Lemma runs_of_interval (f : nat -> bool) (a b n : nat) :
  (a <= b <= n)%nat ->
  (forall k, (k < n)%nat -> f k = (a <=? k)%nat && (k <? b)%nat) ->
  map f (seq 0 n)
  = (repeat false a ++ repeat true (b - a) ++ repeat false (n - b))%list.
Proof.
  intros B H.
  replace n with (a + ((b - a) + (n - b)))%nat at 1 by lia.
  rewrite !seq_app, !map_app. cbn [Nat.add]. f_equal; [| f_equal].
  - apply map_seq_const. intros k Hk. rewrite H by lia.
    destruct (Nat.leb_spec a k); [lia | reflexivity].
  - apply map_seq_const. intros k Hk. rewrite H by lia.
    destruct (Nat.leb_spec a k); [| lia].
    destruct (Nat.ltb_spec k b); [reflexivity | lia].
  - apply map_seq_const. intros k Hk. rewrite H by lia.
    destruct (Nat.ltb_spec k b); [lia |]. apply andb_false_r.
Qed.

Lemma MakeDay_next_month (y m : Z) : MakeDay y (m + 1) 1 = MakeDay y m 1 + DaysInMonth y m.
Proof.
  unfold DaysInMonth. lia.
Qed.

Lemma DaysInMonth_any (y m : Z) : 28 <= DaysInMonth y m <= 31.
Proof.
  rewrite DaysInMonth_normalise. apply DaysInMonth_range.
  pose proof (Z.mod_pos_bound m 12 ltac:(lia)). lia.
Qed.

(** Within four weeks of the first day of a month, either way, the days
    whose month number is that of the month are exactly the days of the
    month. *)
Lemma month_of_nearby_day (y m j : Z) :
  0 <= m <= 11 ->
  -28 <= j < DaysInMonth y m + 28 ->
  (MonthFromDay (MakeDay y m 1 + j) =? m) = (0 <=? j) && (j <? DaysInMonth y m).
Proof.
  intros M J.
  pose proof (DaysInMonth_any y m) as L.
  destruct (Z.leb_spec 0 j) as [P | N]; cbn [andb].
  - destruct (Z.ltb_spec j (DaysInMonth y m)) as [In | Out].
    + rewrite <- MakeDay_date.
      destruct (fields_of_MakeDay y m (1 + j) M ltac:(lia)) as (_ & -> & _).
      apply Z.eqb_refl.
    + pose proof (DaysInMonth_any y (m + 1)) as L'.
      replace (MakeDay y m 1 + j)
        with (MakeDay y (m + 1) (1 + (j - DaysInMonth y m)))
        by (rewrite MakeDay_date, MakeDay_next_month; lia).
      destruct (MonthFromDay_MakeDay y (m + 1) (1 + (j - DaysInMonth y m)) ltac:(lia))
        as [-> _].
      apply Z.eqb_neq. Z.div_mod_to_equations. lia.
  - pose proof (DaysInMonth_any y (m - 1)) as L'.
    pose proof (MakeDay_next_month y (m - 1)) as Nx.
    replace (m - 1 + 1) with m in Nx by lia.
    replace (MakeDay y m 1 + j)
      with (MakeDay y (m - 1) (1 + (DaysInMonth y (m - 1) + j)))
      by (rewrite MakeDay_date; lia).
    destruct (MonthFromDay_MakeDay y (m - 1) (1 + (DaysInMonth y (m - 1) + j))
                ltac:(lia)) as [-> _].
    apply Z.eqb_neq. Z.div_mod_to_equations. lia.
Qed.

Lemma WeekDay_range (d : Z) : 0 <= WeekDay d <= 6.
Proof.
  unfold WeekDay. pose proof (Z.mod_pos_bound (d + 4) 7 ltac:(lia)). lia.
Qed.

(** The first day of a month lies in the year of the month. *)
Lemma first_of_month_in_year (y m : Z) :
  0 <= m <= 11 ->
  DayFromYear y <= MakeDay y m 1 <= DayFromYear y + 335.
Proof.
  intros M. rewrite MakeDay_in_year by exact M.
  destruct (leapOf_cases y) as [[-> _] | [-> _]]; each_month M; month_days; lia.
Qed.

(** Where [calendarDays] starts its loop: the day after the first of the
    month, moved back by the week day number of the first. *)
Lemma calendarDays_start (h : Host) (leaveTypes : list LeaveType.t)
    (l : list Assignment.t) (t : Z) :
  ~ (0 <= referenceYear h t <= 99) ->
  calendarDays h leaveTypes l (Some t)
  = calendarLoop h leaveTypes l (Some (referenceMonth h t)) 42
      (Some (midnight h (firstDayOfMonth h t + 1 - WeekDay (firstDayOfMonth h t))))
      [].
Proof.
  intros Y. unfold calendarDays.
  change (getFullYear h (Some t)) with (Some (referenceYear h t)).
  change (getMonth h (Some t)) with (Some (referenceMonth h t)).
  rewrite newDateYMD_midnight.
  replace ((0 <=? referenceYear h t) && (referenceYear h t <=? 99)) with false
    by (symmetry; apply andb_false_iff;
        destruct (Z.leb_spec 0 (referenceYear h t));
        destruct (Z.leb_spec (referenceYear h t) 99); auto; lia).
  fold (firstDayOfMonth h t).
  rewrite getDate_midnight, getDay_midnight. cbn [add sub].
  rewrite setDate_midnight. do 3 f_equal. lia.
Qed.

Lemma countTrue_runs (a b c : nat) :
  countTrue (repeat false a ++ repeat true b ++ repeat false c)%list = b.
Proof.
  unfold countTrue. rewrite !filter_app, !length_app.
  assert (F : forall n, filter (fun x : bool => x) (repeat false n) = []).
  { induction n; simpl; auto. }
  assert (T : forall n, filter (fun x : bool => x) (repeat true n) = repeat true n).
  { induction n; simpl; [reflexivity | f_equal; assumption]. }
  rewrite !F, T, repeat_length. simpl. lia.
Qed.

(** The grid in full: where it starts and how long its runs are, in terms
    of the first day of the month, its week day and the length of the
    month. *)
Lemma calendar_grid_layout (h : Host) (leaveTypes : list LeaveType.t)
    (l : list Assignment.t) (t : Z) :
  - msPerDay < LocalTZA h <= 0 ->
  100 <= referenceYear h t <= 9998 ->
  canonicalDates l ->
  exists days,
    calendarDays h leaveTypes l (Some t) = Ok days
    /\ List.length days = 42%nat
    /\ consecutiveFrom
         (firstDayOfMonth h t + 1 - WeekDay (firstDayOfMonth h t)) days
    /\ runs (Z.to_nat (WeekDay (firstDayOfMonth h t) - 1))
            (42 - Z.to_nat (DaysInMonth (referenceYear h t) (referenceMonth h t)
                            + WeekDay (firstDayOfMonth h t) - 1))
            days.
Proof.
  intros Tz Y Cl.
  rewrite calendarDays_start by lia.
  pose proof (utcShift_behind h Tz) as Sh.
  pose proof (MonthFromDay_range (Day (LocalTime h t))) as M.
  fold (referenceMonth h t) in M.
  pose proof (first_of_month_in_year (referenceYear h t) (referenceMonth h t) M) as F.
  fold (firstDayOfMonth h t) in F.
  pose proof (DaysInMonth_any (referenceYear h t) (referenceMonth h t)) as Len.
  pose proof (WeekDay_range (firstDayOfMonth h t)) as W.
  set (y := referenceYear h t) in *. set (m := referenceMonth h t) in *.
  set (first := firstDayOfMonth h t) in *. set (w := WeekDay first) in *.
  set (len := DaysInMonth y m) in *.
  destruct (calendarLoop_cells h leaveTypes l (Some m) 42 Cl (first + 1 - w) [])
    as (cells & E & Dt & Fl).
  { intros k Hk. rewrite Sh.
    pose proof (DayFromYear_succ (y - 1)) as P1.
    replace (y - 1 + 1) with y in P1 by lia.
    pose proof (DayFromYear_succ y) as P2. pose proof (DayFromYear_succ (y + 1)) as P3.
    replace (y + 1 + 1) with (y + 2) in P3 by lia.
    destruct (DaysInYear_cases (y - 1)), (DaysInYear_cases y), (DaysInYear_cases (y + 1));
      assert (B : y - 1 <= YearFromDay (first + 1 - w + Z.of_nat k + 0) < y + 2)
        by (apply YearFromDay_between; lia); lia. }
  cbn [app] in E.
  assert (N : List.length cells = 42%nat).
  { rewrite <- (length_map DayInfo.date), Dt, length_map, length_seq. reflexivity. }
  exists cells. split; [exact E |]. split; [exact N |]. split.
  - unfold consecutiveFrom. rewrite N, Dt. apply map_ext. intros k.
    rewrite Sh, Z.add_0_r. reflexivity.
  - unfold runs. rewrite N, Fl.
    replace (42 - Z.to_nat (w - 1) - (42 - Z.to_nat (len + w - 1)))%nat
      with (Z.to_nat (len + w - 1) - Z.to_nat (w - 1))%nat by lia.
    apply runs_of_interval; [lia |].
    intros k Hk. cbn [strictEq].
    replace (first + 1 - w + Z.of_nat k) with (MakeDay y m 1 + (1 - w + Z.of_nat k))
      by (unfold first, firstDayOfMonth; fold y; fold m; lia).
    rewrite month_of_nearby_day by (fold len; lia). fold len.
    destruct (Z.leb_spec 0 (1 - w + Z.of_nat k));
      destruct (Z.ltb_spec (1 - w + Z.of_nat k) len);
      destruct (Nat.leb_spec (Z.to_nat (w - 1)) k);
      destruct (Nat.ltb_spec k (Z.to_nat (len + w - 1)));
      cbn [andb]; try reflexivity; lia.
Qed.

Lemma WeekDay_grid_start (first : Z) : WeekDay (first + 1 - WeekDay first) = 1.
Proof.
  unfold WeekDay. Z.div_mod_to_equations. lia.
Qed.

(** C4: for a reference date of the years 100 to 9998 on a host at UTC or
    less than a day behind it, and assignments on canonical dates,
    [calendarDays] returns exactly 42 entries on consecutive days beginning
    on a Monday, with one leading and one trailing run of entries outside
    the month and none in between; when the first day of the month is not
    a Sunday, the grid begins on the Monday on or before that day, the
    leading run has 0 to 5 entries and the trailing run 6 to 14. *)
Theorem calendar_grid (h : Host) (leaveTypes : list LeaveType.t)
    (l : list Assignment.t) (t : Z) :
  - msPerDay < LocalTZA h <= 0 ->
  100 <= referenceYear h t <= 9998 ->
  canonicalDates l ->
  exists days start lead trail,
    calendarDays h leaveTypes l (Some t) = Ok days
    /\ List.length days = 42%nat
    /\ consecutiveFrom start days
    /\ WeekDay start = 1
    /\ runs lead trail days
    /\ (lead + trail <= 42)%nat
    /\ (WeekDay (firstDayOfMonth h t) <> 0 ->
        start <= firstDayOfMonth h t < start + 7
        /\ (lead <= 5)%nat /\ (6 <= trail <= 14)%nat).
Proof.
  intros Tz Y Cl.
  destruct (calendar_grid_layout h leaveTypes l t Tz Y Cl) as (days & E & N & C & R).
  pose proof (DaysInMonth_any (referenceYear h t) (referenceMonth h t)) as Len.
  pose proof (WeekDay_range (firstDayOfMonth h t)) as W.
  eexists days, _, _, _.
  split; [exact E |]. split; [exact N |]. split; [exact C |].
  split; [apply WeekDay_grid_start |]. split; [exact R |].
  split; [lia |]. intros Nz. lia.
Qed.

(** The grid of July 2025 on a host at UTC, for the seed leave types. *)
Lemma calendar_grid_witness :
  exists days start lead trail,
    calendarDays (strictHost 0 0) createSeedLeaveTypes [] (Some 1752537600000) = Ok days
    /\ List.length days = 42%nat
    /\ consecutiveFrom start days
    /\ WeekDay start = 1
    /\ runs lead trail days
    /\ (lead + trail <= 42)%nat
    /\ (WeekDay (firstDayOfMonth (strictHost 0 0) 1752537600000) <> 0 ->
        start <= firstDayOfMonth (strictHost 0 0) 1752537600000 < start + 7
        /\ (lead <= 5)%nat /\ (6 <= trail <= 14)%nat).
Proof.
  apply calendar_grid.
  - vm_compute. split; [reflexivity | discriminate].
  - vm_compute. split; discriminate.
  - constructor.
Defined.

(** The grid of February 2021 (the first is a Monday, the month has 28
    days) ends with fourteen days of March: no grid of 42 days has at most
    six days outside the month at both ends here. *)
Lemma february_grid_has_long_trailing_run :
  ~ gridAsClaimed (strictHost 0 0) createSeedLeaveTypes [] 1613347200000.
Proof.
  intros (days & start & lead & trail & E & N & _ & _ & _ & R & L & T).
  assert (X : match calendarDays (strictHost 0 0) createSeedLeaveTypes []
                      (Some 1613347200000) with
              | Ok d => countTrue (map DayInfo.isCurrentMonth d)
              | Throw _ => 0%nat
              end = 28%nat) by (vm_compute; reflexivity).
  rewrite E in X. unfold runs in R. rewrite R, countTrue_runs, N in X. lia.
Qed.

(** When the first day of the month is a Sunday, the grid begins on the
    Monday after it: the first of the month is not among the 42 days. *)
Lemma grid_begins_after_a_sunday_first (h : Host) (leaveTypes : list LeaveType.t)
    (l : list Assignment.t) (t : Z) :
  - msPerDay < LocalTZA h <= 0 ->
  100 <= referenceYear h t <= 9998 ->
  canonicalDates l ->
  WeekDay (firstDayOfMonth h t) = 0 ->
  exists days,
    calendarDays h leaveTypes l (Some t) = Ok days
    /\ List.length days = 42%nat
    /\ consecutiveFrom (firstDayOfMonth h t + 1) days.
Proof.
  intros Tz Y Cl W.
  destruct (calendar_grid_layout h leaveTypes l t Tz Y Cl) as (days & E & N & C & _).
  exists days. split; [exact E |]. split; [exact N |].
  rewrite W in C. replace (firstDayOfMonth h t + 1 - 0) with (firstDayOfMonth h t + 1)
    in C by lia.
  exact C.
Qed.

Lemma grid_begins_after_a_sunday_first_witness :
  exists days,
    calendarDays (strictHost 0 0) createSeedLeaveTypes [] (Some 1749945600000) = Ok days
    /\ List.length days = 42%nat
    /\ consecutiveFrom (firstDayOfMonth (strictHost 0 0) 1749945600000 + 1) days.
Proof.
  apply grid_begins_after_a_sunday_first.
  - vm_compute. split; [reflexivity | discriminate].
  - vm_compute. split; discriminate.
  - constructor.
  - vm_compute. reflexivity.
Defined.

(** June 2025 begins on a Sunday: on a host at UTC the grid begins on
    Monday 2 June. *)
Example june_2025_grid_starts_on_the_second :
  match calendarDays (strictHost 0 0) createSeedLeaveTypes [] (Some 1749945600000) with
  | Ok (first :: _) => DayInfo.date first = "2025-06-02"
  | _ => False
  end.
Proof.
  vm_compute. reflexivity.
Qed.

End Facts.
